(** * Forex gap screener: a shallow embedding of [gap_screener.py]

    The development follows the script top-down: Python values and
    exceptions, the hourly price frame and the pandas operations the script
    calls on it, the session boundary locator
    [get_friday_close_and_sunday_open], the per-ticker loop of [main], the
    report builder and the delivery step. *)

From Stdlib Require Import ZArith List Ascii String Floats Lia.
From Stdlib Require Import Sorting.Permutation Sorting.Sorted.
From stdpp Require Import base decidable option list sorting strings pretty gmap.

Local Open Scope Z_scope.

(** ** Python values *)

(** A computation that either returns a value or raises an [Exception]
    carrying its message ([str(e)]). *)
Inductive result (A : Type) : Type :=
| Ok (a : A)
| Raise (msg : string).
Arguments Ok {A} a.
Arguments Raise {A} msg.

#[global] Instance result_ret : MRet result := fun A a => Ok a.
#[global] Instance result_bind : MBind result := fun A B f m =>
  match m with
  | Ok a => f a
  | Raise msg => Raise msg
  end.

(** Python's [float] is an IEEE 754 binary64 number, which is what Rocq's
    primitive [float] is. *)
Definition py_ne0 (x : float) : bool := negb (PrimFloat.eqb x 0%float).

(** [a / b] on Python floats raises [ZeroDivisionError] on a zero divisor. *)
Definition py_truediv (a b : float) : result float :=
  if PrimFloat.eqb b 0%float then Raise "float division by zero"
  else Ok (PrimFloat.div a b).

(** ** The price frame *)

(** Timestamps are instants, counted in seconds since the epoch (UTC). *)
Definition Timestamp := Z.

(** One hourly bar: its index entry and the two columns the script reads. *)
Record Bar := mkBar {
  time : Timestamp;
  Open : float;
  Close : float
}.

(** A time zone gives, for an instant, its offset from UTC in seconds. *)
Definition tzinfo := Timestamp -> Z.

Definition UTC : tzinfo := fun _ => 0.

(** The frame returned by the provider: the zone of its index ([None] for
    a naive index), whether it has an ["Open"] column, and its rows. *)
Record DataFrame := mkDataFrame {
  tz : option tzinfo;
  has_Open : bool;
  bars : list Bar
}.

Definition empty_frame : DataFrame :=
  {| tz := None; has_Open := false; bars := [] |}.

(** [df.empty] *)
Definition empty (df : DataFrame) : bool :=
  match bars df with [] => true | _ => false end.

(** [df.tz_localize("UTC")]: a naive wall-clock index read as UTC keeps the
    stored number as its instant. *)
Definition tz_localize (zone : tzinfo) (df : DataFrame) : DataFrame :=
  {| tz := Some zone; has_Open := has_Open df; bars := bars df |}.

(** [df.tz_convert(zone)]: same instants, shown in another zone. *)
Definition tz_convert (zone : tzinfo) (df : DataFrame) : DataFrame :=
  {| tz := Some zone; has_Open := has_Open df; bars := bars df |}.

(** [df.sort_index()]: ascending by timestamp. *)
Definition time_le (a b : Bar) : Prop := time a <= time b.

#[global] Instance time_le_dec : RelDecision time_le :=
  fun a b => Z.le_dec (time a) (time b).

Definition sort_index (df : DataFrame) : DataFrame :=
  {| tz := tz df; has_Open := has_Open df;
     bars := merge_sort time_le (bars df) |}.

Definition zone_of (df : DataFrame) : tzinfo :=
  match tz df with Some z => z | None => UTC end.

Definition local_seconds (zone : tzinfo) (t : Timestamp) : Z := t + zone t.

(** [index.weekday]: Monday is 0; the epoch fell on a Thursday. *)
Definition weekday (zone : tzinfo) (t : Timestamp) : Z :=
  (local_seconds zone t / 86400 + 3) mod 7.

(** [index.hour] *)
Definition hour (zone : tzinfo) (t : Timestamp) : Z :=
  (local_seconds zone t mod 86400) / 3600.

(** [df[mask]] for a mask computed from the index. *)
Definition select (P : Timestamp -> Prop) `{!forall t, Decision (P t)}
    (df : DataFrame) : DataFrame :=
  {| tz := tz df; has_Open := has_Open df;
     bars := filter (fun b => P (time b)) (bars df) |}.

(** [df.index.max()] and [df.index.min()]; on an empty index pandas gives
    [NaT], for which 0 stands here (the script never asks for it). *)
Definition index_max (df : DataFrame) : Timestamp :=
  match bars df with
  | [] => 0
  | b :: bs => foldr (fun b' m => Z.max (time b') m) (time b) bs
  end.

Definition index_min (df : DataFrame) : Timestamp :=
  match bars df with
  | [] => 0
  | b :: bs => foldr (fun b' m => Z.min (time b') m) (time b) bs
  end.

(** What [df.loc[label, column]] evaluates to: a scalar when the label
    occurs once in the index, a Series of all matching cells when it occurs
    several times. *)
Inductive Cell :=
| Scalar (x : float)
| Series (xs : list float).

Definition loc (df : DataFrame) (label : Timestamp) (column : Bar -> float)
    : result Cell :=
  match filter (fun b => time b = label) (bars df) with
  | [] => Raise "KeyError"
  | [b] => Ok (Scalar (column b))
  | bs => Ok (Series (column <$> bs))
  end.

(** The message of the [TypeError] that [float] raises on a Series of
    several elements. *)
Definition TypeError_series : string :=
  "cannot convert the series to <class 'float'>".

(** [float(x)]: a Series converts only when it has a single element. *)
Definition float_of (c : Cell) : result float :=
  match c with
  | Scalar x => Ok x
  | Series [x] => Ok x
  | Series _ => Raise TypeError_series
  end.

(** ** Session boundary locator *)

(** The tuple [(friday_time, friday_close, sunday_time, sunday_open)]. *)
Record SessionPair := mkSessionPair {
  f_time : option Timestamp;
  f_close : option float;
  s_time : option Timestamp;
  s_open : option float
}.

Definition all_absent : SessionPair :=
  {| f_time := None; f_close := None; s_time := None; s_open := None |}.

(** Vocabulary for the properties of the locator: the local day of a bar,
    the reopening hour, the latest and the earliest bar of a kind, and the
    bars that carry a given timestamp. *)
Definition on_friday (zone : tzinfo) (b : Bar) : Prop := weekday zone (time b) = 4.

Definition on_sunday (zone : tzinfo) (b : Bar) : Prop := weekday zone (time b) = 6.

Definition at_reopen (zone : tzinfo) (b : Bar) : Prop :=
  weekday zone (time b) = 6 ∧ 22 <= hour zone (time b).

#[global] Instance on_friday_dec zone b : Decision (on_friday zone b).
Proof. unfold on_friday. apply _. Defined.

#[global] Instance on_sunday_dec zone b : Decision (on_sunday zone b).
Proof. unfold on_sunday. apply _. Defined.

#[global] Instance at_reopen_dec zone b : Decision (at_reopen zone b).
Proof. unfold at_reopen. apply _. Defined.

Definition latest (P : Bar -> Prop) (l : list Bar) (b : Bar) : Prop :=
  b ∈ l ∧ P b ∧ forall b', b' ∈ l -> P b' -> time b' <= time b.

Definition earliest (P : Bar -> Prop) (l : list Bar) (b : Bar) : Prop :=
  b ∈ l ∧ P b ∧ forall b', b' ∈ l -> P b' -> time b <= time b'.

Definition at_time (t : Timestamp) (l : list Bar) : list Bar :=
  filter (fun b => time b = t) l.

Definition shared (t : Timestamp) (l : list Bar) : Prop :=
  (2 <= length (at_time t l))%nat.

(** The outcome of [yf.download]: a frame, or an exception. *)
Definition Provider := string -> result DataFrame.

Section Locator.

(** [TZ = pytz.timezone("Europe/Paris")] *)
Variable TZ : tzinfo.

(** [yf.download(ticker, period="12d", interval="1h", ...)] *)
Variable download : Provider.

Definition yf_download_safe (ticker : string) : DataFrame :=
  match download ticker with
  | Ok df => df
  | Raise _ => empty_frame
  end.

(** [df.loc[sunday_time, "Open"] if "Open" in df.columns else
    df.loc[sunday_time, "Close"]] *)
Definition open_or_close (df : DataFrame) : Bar -> float :=
  if has_Open df then Open else Close.

(** The body of [get_friday_close_and_sunday_open] once the frame is
    fetched (lines 53 to 83). *)
Definition locate (df : DataFrame) : result SessionPair :=
  if empty df then Ok all_absent else
  let df :=
    match tz df with
    | None => tz_convert TZ (tz_localize UTC df)
    | Some _ => tz_convert TZ df
    end in
  let df := sort_index df in
  let friday_rows := select (fun t => weekday (zone_of df) t = 4) df in
  if empty friday_rows then Ok all_absent else
  let friday_time := index_max friday_rows in
  friday_close ← loc friday_rows friday_time Close ≫= float_of;
  let sunday_candidates :=
    select (fun t => weekday (zone_of df) t = 6 ∧ 22 <= hour (zone_of df) t) df in
  if empty sunday_candidates then
    let sunday_rows := select (fun t => weekday (zone_of df) t = 6) df in
    if empty sunday_rows then
      Ok {| f_time := Some friday_time; f_close := Some friday_close;
            s_time := None; s_open := None |}
    else
      let sunday_time := index_min sunday_rows in
      sunday_open ← loc df sunday_time (open_or_close df) ≫= float_of;
      Ok {| f_time := Some friday_time; f_close := Some friday_close;
            s_time := Some sunday_time; s_open := Some sunday_open |}
  else
    let sunday_time := index_min sunday_candidates in
    sunday_open ← loc df sunday_time (open_or_close df) ≫= float_of;
    Ok {| f_time := Some friday_time; f_close := Some friday_close;
          s_time := Some sunday_time; s_open := Some sunday_open |}.

Definition get_friday_close_and_sunday_open (ticker : string)
    : result SessionPair :=
  locate (yf_download_safe ticker).

End Locator.

(** The frame [locate] works on after lines 57 to 61, and what it does from
    line 70 on once the Friday boundary is known; the proofs read [locate]
    through these two. *)
Definition normalized (TZ : tzinfo) (df : DataFrame) : DataFrame :=
  sort_index (tz_convert TZ df).

Definition sunday_step (TZ : tzinfo) (df : DataFrame)
    (friday_time : Timestamp) (friday_close : float) : result SessionPair :=
  let sorted := normalized TZ df in
  let sunday_candidates :=
    select (fun t => weekday TZ t = 6 ∧ 22 <= hour TZ t) sorted in
  if empty sunday_candidates then
    let sunday_rows := select (fun t => weekday TZ t = 6) sorted in
    if empty sunday_rows then
      Ok {| f_time := Some friday_time; f_close := Some friday_close;
            s_time := None; s_open := None |}
    else
      let sunday_time := index_min sunday_rows in
      sunday_open ← loc sorted sunday_time (open_or_close df) ≫= float_of;
      Ok {| f_time := Some friday_time; f_close := Some friday_close;
            s_time := Some sunday_time; s_open := Some sunday_open |}
  else
    let sunday_time := index_min sunday_candidates in
    sunday_open ← loc sorted sunday_time (open_or_close df) ≫= float_of;
    Ok {| f_time := Some friday_time; f_close := Some friday_close;
          s_time := Some sunday_time; s_open := Some sunday_open |}.

(** A zone with a constant offset of one hour (Paris in winter), and a few
    instants of the first week after the epoch, for running the model. *)
Definition CET : tzinfo := fun _ => 3600.

Definition at_ (day hh : Z) : Timestamp := (day * 24 + hh) * 3600.

Definition sample : DataFrame :=
  {| tz := None; has_Open := true;
     bars := [ mkBar (at_ 4 21) 1.875 2.0;   (* Mon 22:00 local *)
               mkBar (at_ 1 19) 1.0 1.125;   (* Fri 20:00 local *)
               mkBar (at_ 1 20) 1.25 1.375;   (* Fri 21:00 local *)
               mkBar (at_ 3 20) 1.5 1.625;   (* Sun 21:00 local *)
               mkBar (at_ 3 21) 1.75 1.8125;   (* Sun 22:00 local *)
               mkBar (at_ 3 22) 1.9375 1.96875 ]  (* Sun 23:00 local *) |}.


(** ** The per-ticker loop of [main] *)

(** One tuple appended to [rows]; the fields carry the names of the report
    columns. [str(f_time)] and [str(s_time)] are kept as the timestamps they
    print. *)
Record Row := mkRow {
  pair : string;
  friday_time : option Timestamp;
  friday_close : option float;
  sunday_time : option Timestamp;
  sunday_open : option float;
  gap_pct : option float;
  note : option string
}.

(** Lines 124 to 126. [isinstance(x, float)] holds of the prices exactly
    when they are not [None], since [locate] builds them with [float(...)]. *)
Definition compute_gap (f_close s_open : option float)
    : result (option float) :=
  match f_close, s_open with
  | Some f, Some s =>
      if py_ne0 f then
        q ← py_truediv (PrimFloat.sub s f) f;
        Ok (Some (PrimFloat.mul q 100%float))
      else Ok None
  | _, _ => Ok None
  end.

(** The Gap Calculator in the words of the specification: absent unless
    both prices are present and the Friday close is nonzero, and otherwise
    [(sunday_open - friday_close) / friday_close * 100.0]. *)
Definition spec_gap_pct (friday_close sunday_open : option float) : option float :=
  match friday_close, sunday_open with
  | Some f, Some s =>
      if PrimFloat.eqb f 0%float then None
      else Some (PrimFloat.mul (PrimFloat.div (PrimFloat.sub s f) f) 100%float)
  | _, _ => None
  end.

(** [note or None] *)
Definition or_None (note : string) : option string :=
  if decide (note = "") then None else Some note.

(** The row of the [except Exception as e] branch. *)
Definition error_row (ticker msg : string) : Row :=
  {| pair := ticker; friday_time := None; friday_close := None;
     sunday_time := None; sunday_open := None; gap_pct := None;
     note := Some ("error: " +:+ msg) |}.

Section Loop.

Variable TZ : tzinfo.
Variable download : Provider.

(** The [try] block, lines 118 to 127. *)
Definition try_ticker (ticker : string) : result Row :=
  sp ← get_friday_close_and_sunday_open TZ download ticker;
  let note := "" in
  let note := if f_close sp is None then "no friday data" else note in
  let note := if s_open sp is None then "no sunday open" else note in
  gap ← compute_gap (f_close sp) (s_open sp);
  Ok {| pair := ticker;
        friday_time := f_time sp; friday_close := f_close sp;
        sunday_time := s_time sp; sunday_open := s_open sp;
        gap_pct := gap; note := or_None note |}.

(** One iteration of the loop: the [try] block and its handler. *)
Definition screen (ticker : string) : Row :=
  match try_ticker ticker with
  | Ok row => row
  | Raise msg => error_row ticker msg
  end.

(** [for ticker in pairs: ... rows.append(...)] *)
Definition screen_all (pairs : list string) : list Row :=
  foldl (fun rows ticker => rows ++ [screen ticker]) [] pairs.

End Loop.

(** ** Report builder *)

(** [pd.isna] on a float cell. *)
Definition isna (x : float) : bool := negb (PrimFloat.eqb x x).

(** A float column of the frame holds [NaN] where the tuple had [None]. *)
Definition cell (x : option float) : float :=
  match x with Some v => v | None => PrimFloat.nan end.

(** [Series.fillna(v)] on one cell. *)
Definition fillna (v x : float) : float := if isna x then v else x.

(** [df["gap_pct"].abs().fillna(0)] on one row. *)
Definition abs_gap (r : Row) : float :=
  fillna 0%float (PrimFloat.abs (cell (gap_pct r))).

(** The frame with its helper column. *)
Definition Keyed := list (Row * float).

(** The order [sort_values("abs_gap", ascending=False)] produces: no key
    below the key that follows it. *)
Definition key_ge (a b : Row * float) : Prop := PrimFloat.leb (b.2) (a.2) = true.

(** A key the sort can compare: not [NaN]. *)
Definition keyed_ok (x : Row * float) : Prop := isna (x.2) = false.

(** What pandas promises of [sort_values] with its default
    [kind="quicksort"] on a column without missing values: the rows come
    back reordered by the key. That sort is not stable; the order of rows
    with equal keys is left to the algorithm. *)
Definition sort_values_spec (sort_values : Keyed -> Keyed) : Prop :=
  forall df : Keyed,
  Forall keyed_ok df ->
  sort_values df ≡ₚ df ∧ Sorted key_ge (sort_values df).

(** The dtype of the [gap_pct] column of [pd.DataFrame(rows, ...)]: a float
    column, with [NaN] where a tuple has [None], as soon as one tuple holds
    a float there (or when there is no tuple at all, where the dtype does
    not matter); a column of [None] objects when there are tuples and none
    of them holds a gap. *)
Definition has_gap (r : Row) : bool :=
  match gap_pct r with Some _ => true | None => false end.

Definition numeric_gaps (rows : list Row) : bool :=
  match rows with
  | [] => true
  | _ => existsb has_gap rows
  end.

Section Report.

Variable sort_values : Keyed -> Keyed.

(** [abs()] works cell by cell: on a column of [None] objects it raises
    [TypeError] at the first cell. *)
Definition build_report (rows : list Row) : result (list Row) :=
  if numeric_gaps rows then
    let df := (fun r => (r, abs_gap r)) <$> rows in
    let df := sort_values df in
    Ok (fst <$> df)
  else Raise "bad operand type for abs(): 'NoneType'".

End Report.

(** A sort that meets [sort_values_spec], by insertion from the right: a
    row goes in front of the rows of equal key, so ties keep their order. *)
Fixpoint insert_before (x : Row * float) (l : Keyed) : Keyed :=
  match l with
  | [] => [x]
  | y :: l' =>
      if PrimFloat.leb (y.2) (x.2) then x :: y :: l'
      else y :: insert_before x l'
  end.

Definition stable_sort (df : Keyed) : Keyed := foldr insert_before [] df.

(** ** The sort behind [sort_values]

    [df.sort_values("abs_gap", ascending=False)] leaves [kind] at its
    default, quicksort. pandas' [nargsort] sets the missing keys aside,
    reverses the column, has numpy sort the positions with
    [argsort(kind="quicksort")], and reverses the result. The definitions
    below follow numpy's [aquicksort_] on a [float64] column, the scalar
    kernel of [argsort]: an introsort that partitions around the median of
    three while a range spans more than [SMALL_QUICKSORT] cells, sorts a
    smaller range by insertion, and turns to [aheapsort_] below the depth
    limit. [tosort] is the array of positions being sorted, [v] the keys;
    [pl], [pr], [pi], [pj] are offsets into [tosort]. Loops carry a fuel
    that their pointers cannot exhaust. *)

(** Order of two keys, a missing one last. *)
Definition less (a b : float) : bool :=
  PrimFloat.ltb a b || (isna b && negb (isna a)).

Definition SMALL_QUICKSORT : Z := 16.

Definition npy_get_msb (unum : Z) : Z := Z.log2 unum.

Definition val (v : list float) (i : Z) : float :=
  default PrimFloat.nan (v !! Z.to_nat i).

Definition deref (tosort : list Z) (p : Z) : Z :=
  default 0 (tosort !! Z.to_nat p).

Definition store (tosort : list Z) (p x : Z) : list Z :=
  <[Z.to_nat p := x]> tosort.

Definition key_at (v : list float) (tosort : list Z) (p : Z) : float :=
  val v (deref tosort p).

Definition INTP_SWAP (tosort : list Z) (p q : Z) : list Z :=
  store (store tosort p (deref tosort q)) q (deref tosort p).

(** The inner loop of a heap pass: [a\[k\]] is the cell at [base + k]. *)
Fixpoint sift (fuel : nat) (v : list float) (tosort : list Z)
    (base n tmp i j : Z) : list Z * Z :=
  match fuel with
  | O => (tosort, i)
  | S fuel' =>
      if j <=? n then
        let j := if (j <? n) && less (key_at v tosort (base + j))
                                     (key_at v tosort (base + j + 1))
                 then j + 1 else j in
        if less (val v tmp) (key_at v tosort (base + j))
        then sift fuel' v (store tosort (base + i) (deref tosort (base + j)))
               base n tmp j (j + j)
        else (tosort, i)
      else (tosort, i)
  end.

Fixpoint heapify (fuel : nat) (v : list float) (tosort : list Z)
    (base n l : Z) : list Z :=
  match fuel with
  | O => tosort
  | S fuel' =>
      if l >? 0 then
        let tmp := deref tosort (base + l) in
        let '(tosort, i) :=
          sift (length tosort) v tosort base n tmp l (Z.shiftl l 1) in
        heapify fuel' v (store tosort (base + i) tmp) base n (l - 1)
      else tosort
  end.

Fixpoint unheap (fuel : nat) (v : list float) (tosort : list Z)
    (base n : Z) : list Z :=
  match fuel with
  | O => tosort
  | S fuel' =>
      if n >? 1 then
        let tmp := deref tosort (base + n) in
        let tosort := store tosort (base + n) (deref tosort (base + 1)) in
        let n := n - 1 in
        let '(tosort, i) := sift (length tosort) v tosort base n tmp 1 2 in
        unheap fuel' v (store tosort (base + i) tmp) base n
      else tosort
  end.

(** [aheapsort_(vv, pl, n)]: the [n] cells from offset [pl]. *)
Definition aheapsort_ (v : list float) (tosort : list Z) (pl n : Z) : list Z :=
  let base := pl - 1 in
  let tosort := heapify (length tosort) v tosort base n (Z.shiftr n 1) in
  unheap (length tosort) v tosort base n.

(** Median of three: the keys at [pl], [pm], [pr] put in order. *)
Definition median3 (v : list float) (tosort : list Z) (pl pm pr : Z) : list Z :=
  let tosort := if less (key_at v tosort pm) (key_at v tosort pl)
                then INTP_SWAP tosort pm pl else tosort in
  let tosort := if less (key_at v tosort pr) (key_at v tosort pm)
                then INTP_SWAP tosort pr pm else tosort in
  if less (key_at v tosort pm) (key_at v tosort pl)
  then INTP_SWAP tosort pm pl else tosort.

(** [do ++pi; while (less(v\[*pi\], vp))] and its mirror. *)
Fixpoint scan_up (fuel : nat) (v : list float) (tosort : list Z)
    (vp : float) (pi : Z) : Z :=
  match fuel with
  | O => pi
  | S fuel' =>
      let pi := pi + 1 in
      if less (key_at v tosort pi) vp then scan_up fuel' v tosort vp pi else pi
  end.

Fixpoint scan_down (fuel : nat) (v : list float) (tosort : list Z)
    (vp : float) (pj : Z) : Z :=
  match fuel with
  | O => pj
  | S fuel' =>
      let pj := pj - 1 in
      if less vp (key_at v tosort pj) then scan_down fuel' v tosort vp pj
      else pj
  end.

(** The exchange loop of a partition; it returns where the pivot goes. *)
Fixpoint exchange (fuel : nat) (v : list float) (tosort : list Z)
    (vp : float) (pi pj : Z) : list Z * Z :=
  match fuel with
  | O => (tosort, pi)
  | S fuel' =>
      let pi := scan_up (length tosort) v tosort vp pi in
      let pj := scan_down (length tosort) v tosort vp pj in
      if pi >=? pj then (tosort, pi)
      else exchange fuel' v (INTP_SWAP tosort pi pj) vp pi pj
  end.

(** A range put aside, with the depth left for it. *)
Definition Pending : Type := Z * Z * Z.

(** [while ((pr - pl) > SMALL_QUICKSORT)]: partition, push the larger part,
    go on with the smaller. *)
Fixpoint partition_while (fuel : nat) (v : list float) (tosort : list Z)
    (pl pr : Z) (stack : list Pending) (cdepth : Z)
    : list Z * Z * Z * list Pending :=
  match fuel with
  | O => (tosort, pl, pr, stack)
  | S fuel' =>
      if pr - pl >? SMALL_QUICKSORT then
        let pm := pl + Z.shiftr (pr - pl) 1 in
        let tosort := median3 v tosort pl pm pr in
        let vp := key_at v tosort pm in
        let tosort := INTP_SWAP tosort pm (pr - 1) in
        let '(tosort, pi) := exchange (length tosort) v tosort vp pl (pr - 1) in
        let tosort := INTP_SWAP tosort pi (pr - 1) in
        let cdepth := cdepth - 1 in
        if pi - pl <? pr - pi
        then partition_while fuel' v tosort pl (pi - 1)
               ((pi + 1, pr, cdepth) :: stack) cdepth
        else partition_while fuel' v tosort (pi + 1) pr
               ((pl, pi - 1, cdepth) :: stack) cdepth
      else (tosort, pl, pr, stack)
  end.

(** [while (pj > pl && less(vp, v\[*pk\])) *pj-- = *pk--;] *)
Fixpoint shift (fuel : nat) (v : list float) (tosort : list Z)
    (vp : float) (pl pj : Z) : list Z * Z :=
  match fuel with
  | O => (tosort, pj)
  | S fuel' =>
      if (pj >? pl) && less vp (key_at v tosort (pj - 1))
      then shift fuel' v (store tosort pj (deref tosort (pj - 1))) vp pl (pj - 1)
      else (tosort, pj)
  end.

Fixpoint insertion (fuel : nat) (v : list float) (tosort : list Z)
    (pl pr pi : Z) : list Z :=
  match fuel with
  | O => tosort
  | S fuel' =>
      if pi <=? pr then
        let vi := deref tosort pi in
        let '(tosort, pj) := shift (length tosort) v tosort (val v vi) pl pi in
        insertion fuel' v (store tosort pj vi) pl pr (pi + 1)
      else tosort
  end.

(** The outer loop: one range per turn, then the next from the stack. *)
Fixpoint aquicksort_loop (fuel : nat) (v : list float) (tosort : list Z)
    (pl pr : Z) (stack : list Pending) (cdepth : Z) : list Z :=
  match fuel with
  | O => tosort
  | S fuel' =>
      let '(tosort, stack) :=
        if cdepth <? 0 then (aheapsort_ v tosort pl (pr - pl + 1), stack)
        else
          let '(tosort, pl, pr, stack) :=
            partition_while (length tosort) v tosort pl pr stack cdepth in
          (insertion (length tosort) v tosort pl pr (pl + 1), stack) in
      match stack with
      | [] => tosort
      | (pl, pr, cdepth) :: stack =>
          aquicksort_loop fuel' v tosort pl pr stack cdepth
      end
  end.

Definition aquicksort_ (v : list float) (tosort : list Z) (num : Z) : list Z :=
  aquicksort_loop (S (length tosort)) v tosort 0 (num - 1) []
    (npy_get_msb num * 2).

(** [ndarray.argsort(kind="quicksort")]: the positions, sorted by key. *)
Definition argsort (v : list float) : list Z :=
  aquicksort_ v (seqZ 0 (Z.of_nat (length v))) (Z.of_nat (length v)).

(** pandas' [nargsort(items, kind="quicksort", ascending, na_position="last")]. *)
Definition nargsort (items : list float) (ascending : bool) : list Z :=
  let cells := zip (seqZ 0 (Z.of_nat (length items))) items in
  let non_nan := filter (fun c => isna (c.2) = false) cells in
  let nan_idx := fst <$> filter (fun c => isna (c.2) = true) cells in
  let non_nan := if ascending then non_nan else reverse non_nan in
  let indexer := deref (fst <$> non_nan) <$> argsort (snd <$> non_nan) in
  let indexer := if ascending then indexer else reverse indexer in
  indexer ++ nan_idx.

(** [df.sort_values("abs_gap", ascending=False)]: the rows taken at the
    positions [nargsort] returns. *)
Definition sort_values_quicksort (df : Keyed) : Keyed :=
  omap (fun i => df !! Z.to_nat i) (nargsort (snd <$> df) false).

(** The order of floats, read on their specification: a float is ranked by
    its class and sign, then by exponent, then by mantissa, and two floats
    compare as their ranks do. *)
Definition rank (x : spec_float) : Z * Z * Z :=
  match x with
  | S754_zero _ => (0, 0, 0)
  | S754_infinity s => (if s then -2 else 2, 0, 0)
  | S754_nan => (3, 0, 0)
  | S754_finite s m e => if s then (-1, - e, Z.neg m) else (1, e, Z.pos m)
  end.

Definition lex3 (a b : Z * Z * Z) : comparison :=
  match a.1.1 ?= b.1.1 with
  | Eq => match a.1.2 ?= b.1.2 with
          | Eq => a.2 ?= b.2
          | c => c
          end
  | c => c
  end.

(** The order of the report, read on the rows themselves. *)
Definition gap_ge (a b : Row) : Prop := PrimFloat.leb (abs_gap b) (abs_gap a) = true.

(** A row that carries only a ticker and a gap. *)
Definition with_gap (name : string) (g : option float) : Row :=
  {| pair := name; friday_time := None; friday_close := None;
     sunday_time := None; sunday_open := None; gap_pct := g; note := None |}.

#[global] Instance gap_ge_dec : RelDecision gap_ge :=
  fun a b => bool_eq_dec (PrimFloat.leb (abs_gap b) (abs_gap a)) true.

(** The ordering scenario of the specification: gaps 2.0, absent, -5.0 and
    1.0, and the report expected of them. *)
Definition example_rows : list Row :=
  [ with_gap "A" (Some 2%float); with_gap "B" None;
    with_gap "C" (Some (-5)%float); with_gap "D" (Some 1%float) ].

Definition example_report : list Row :=
  [ with_gap "C" (Some (-5)%float); with_gap "A" (Some 2%float);
    with_gap "D" (Some 1%float); with_gap "B" None ].

(** Two rows whose gaps have the same magnitude. *)
Definition tied_rows : list Row :=
  [ with_gap "A" (Some 1%float); with_gap "B" (Some (-1)%float) ].

(** A run over twenty tickers whose gaps take three magnitudes. *)
Definition twenty_rows : list Row :=
  [ with_gap "EURUSD=X" (Some 0.5%float);
    with_gap "GBPUSD=X" (Some (-0.25)%float);
    with_gap "USDJPY=X" (Some 0.125%float);
    with_gap "AUDUSD=X" (Some 0.25%float);
    with_gap "USDCAD=X" (Some (-0.5)%float);
    with_gap "USDCHF=X" (Some 0.125%float);
    with_gap "NZDUSD=X" (Some 0.5%float);
    with_gap "EURGBP=X" (Some 0.25%float);
    with_gap "EURJPY=X" (Some (-0.125)%float);
    with_gap "GBPJPY=X" (Some 0.5%float);
    with_gap "AUDJPY=X" (Some (-0.25)%float);
    with_gap "EURAUD=X" (Some 0.125%float);
    with_gap "EURCHF=X" (Some 0.25%float);
    with_gap "CHFJPY=X" (Some (-0.5)%float);
    with_gap "GBPCHF=X" (Some (-0.125)%float);
    with_gap "EURCAD=X" (Some 0.5%float);
    with_gap "AUDCAD=X" (Some 0.25%float);
    with_gap "CADJPY=X" (Some 0.125%float);
    with_gap "NZDJPY=X" (Some (-0.5)%float);
    with_gap "AUDNZD=X" (Some 0.25%float) ].

(** The rows of magnitude [k], in the order they have in [rows]. *)
Definition ties (k : float) (rows : list Row) : list Row :=
  filter (fun r => PrimFloat.eqb (abs_gap r) k = true) rows.

(** ** Command line and mail settings *)

(** Truth value of an optional string and of an optional integer. *)
Definition truthy (x : option string) : bool :=
  match x with
  | Some s => negb (String.eqb s "")
  | None => false
  end.

Definition truthy_int (x : option Z) : bool :=
  match x with
  | Some n => negb (n =? 0)
  | None => false
  end.

(** [a or b] on optional strings. *)
Definition py_or (a b : option string) : option string :=
  if truthy a then a else b.

(** [s.split(",")] *)
Fixpoint split_comma (s : string) : list string :=
  match s with
  | EmptyString => [EmptyString]
  | String c s' =>
      if Ascii.eqb c ","%char then EmptyString :: split_comma s'
      else match split_comma s' with
           | w :: ws => String c w :: ws
           | [] => [String c EmptyString]
           end
  end.

(** White space, as [str.strip()] sees it. A text is held as the bytes of
    its UTF-8 form, so a white space character takes one, two or three
    bytes: U+0009 to U+000D, U+001C to U+0020; U+0085 and U+00A0; U+1680,
    U+2000 to U+200A, U+2028, U+2029, U+202F, U+205F and U+3000. In
    well-formed UTF-8 no character's bytes end or start inside another's,
    so the bytes at an end of the text are those of its first or last
    character. *)
Definition byte_of (c : Ascii.ascii) : Z := Z.of_nat (Ascii.nat_of_ascii c).

Definition py_isspace (c : Ascii.ascii) : bool :=
  let n := byte_of c in
  ((9 <=? n) && (n <=? 13)) || ((28 <=? n) && (n <=? 32)).

Definition py_isspace2 (c1 c2 : Ascii.ascii) : bool :=
  (byte_of c1 =? 194) && ((byte_of c2 =? 133) || (byte_of c2 =? 160)).

Definition py_isspace3 (c1 c2 c3 : Ascii.ascii) : bool :=
  let '(n1, n2, n3) := (byte_of c1, byte_of c2, byte_of c3) in
  ((n1 =? 225) && (n2 =? 154) && (n3 =? 128))
  || ((n1 =? 226) && (n2 =? 128)
      && (((128 <=? n3) && (n3 <=? 138)) || (n3 =? 168) || (n3 =? 169)
          || (n3 =? 175)))
  || ((n1 =? 226) && (n2 =? 129) && (n3 =? 159))
  || ((n1 =? 227) && (n2 =? 128) && (n3 =? 128)).

(** The number of bytes of the white space character a text starts with, 0
    when it starts with none; [forward = false] reads a reversed text, whose
    characters have their bytes in reverse. *)
Definition space_len (forward : bool) (l : list Ascii.ascii) : nat :=
  match l with
  | [] => 0
  | c1 :: l1 =>
      if py_isspace c1 then 1
      else match l1 with
           | [] => 0
           | c2 :: l2 =>
               if (if forward then py_isspace2 c1 c2 else py_isspace2 c2 c1)
               then 2
               else match l2 with
                    | [] => 0
                    | c3 :: _ =>
                        if (if forward then py_isspace3 c1 c2 c3
                            else py_isspace3 c3 c2 c1)
                        then 3 else 0
                    end
           end
  end%nat.

(** Drop white space characters from the front, for at most [fuel] of
    them. *)
Fixpoint strip_front (forward : bool) (fuel : nat) (l : list Ascii.ascii)
    : list Ascii.ascii :=
  match fuel with
  | O => l
  | S fuel' =>
      match space_len forward l with
      | O => l
      | k => strip_front forward fuel' (drop k l)
      end
  end.

Definition lstrip_bytes (l : list Ascii.ascii) : list Ascii.ascii :=
  strip_front true (length l) l.

Definition rstrip_bytes (l : list Ascii.ascii) : list Ascii.ascii :=
  reverse (strip_front false (length l) (reverse l)).

Definition lstrip (s : string) : string :=
  string_of_list_ascii (lstrip_bytes (list_ascii_of_string s)).

Definition rstrip (s : string) : string :=
  string_of_list_ascii (rstrip_bytes (list_ascii_of_string s)).

Definition strip (s : string) : string := rstrip (lstrip s).

(** U+00A0, the no-break space. *)
Definition NBSP : string := String "194" (String "160" EmptyString).

(** The module-level mail settings. *)
Record Settings := mkSettings {
  SMTP_HOST : option string;
  SMTP_PORT : option Z;
  SMTP_USER : option string;
  SMTP_PASS : option string;
  EMAIL_FROM : option string;
  EMAIL_TO : option string
}.

Section Environment.

(** Python's [int] on a string; it raises [ValueError] on text that is
    not a number. *)
Variable int : string -> result Z.

(** [os.environ] *)
Variable environ : gmap string string.

(** Lines 29 to 34, run once when the module is loaded. *)
Definition load_settings : result Settings :=
  port ← (if truthy (environ !! "SMTP_PORT")
          then n ← int (default "587" (environ !! "SMTP_PORT")); Ok (Some n)
          else Ok None);
  Ok {| SMTP_HOST := environ !! "SMTP_HOST";
        SMTP_PORT := port;
        SMTP_USER := environ !! "SMTP_USER";
        SMTP_PASS := environ !! "SMTP_PASS";
        EMAIL_FROM := py_or (environ !! "EMAIL_FROM") (environ !! "SMTP_USER");
        EMAIL_TO := environ !! "EMAIL_TO" |}.

End Environment.

(** [all([SMTP_HOST, SMTP_PORT, SMTP_USER, SMTP_PASS, EMAIL_FROM, EMAIL_TO])] *)
Definition all_set (c : Settings) : bool :=
  truthy (SMTP_HOST c) && truthy_int (SMTP_PORT c) && truthy (SMTP_USER c)
  && truthy (SMTP_PASS c) && truthy (EMAIL_FROM c) && truthy (EMAIL_TO c).

(** The parsed command line. *)
Record Args := mkArgs {
  dry_run : bool;
  pairs : option string
}.

(** ** Delivery *)

Record Message := mkMessage {
  Subject : string;
  From : string;
  To : string;
  content : string;
  attachment : string;
  filename : string
}.

(** What a run does to the outside world, in order. Log records are left
    out. *)
Inductive Event :=
| WriteFile (path text : string)
| Print (text : string)
| Smtp (host : string) (port : Z) (user password : string) (msg : Message).

Definition is_Smtp (e : Event) : bool :=
  match e with Smtp _ _ _ _ _ => true | _ => false end.

Section Main.

Variable TZ : tzinfo.
Variable download : Provider.
Variable sort_values : Keyed -> Keyed.

(** [PAIRS = cfg.get("pairs", [])] and the settings read from the
    environment. *)
Variable PAIRS : list string.
Variable settings : Settings.

(** The clock, as the script prints it: [executed_at] and the
    [%Y%m%d_%H%M] stamp of the file names. *)
Variable executed_at : string.
Variable stamp : string.

(** [os.path.join(HERE, name)], the text of one report line, and
    [to_csv(index=False)]. *)
Variable here : string -> string.
Variable format_row : Row -> string.
Variable to_csv : list Row -> string.

(** The SMTP session of [send_email]: [starttls], [login],
    [send_message]. *)
Variable transport : string -> Z -> string -> string -> Message -> result unit.

Definition requested (args : Args) : list string :=
  if truthy (pairs args) then
    filter (fun p => p ≠ "") (strip <$> split_comma (default "" (pairs args)))
  else PAIRS.

Definition send_email (subject body csv_content smtp_host : string)
    (smtp_port : Z) (smtp_user smtp_pass email_from : string)
    (email_to_list : list string) : list Event * result unit :=
  let msg :=
    {| Subject := subject; From := email_from;
       To := String.concat ", " email_to_list;
       content := body; attachment := csv_content;
       filename := "forex_gaps_" +:+ stamp +:+ ".csv" |} in
  ([Smtp smtp_host smtp_port smtp_user smtp_pass msg],
   transport smtp_host smtp_port smtp_user smtp_pass msg).

(** Lines 135 to 149: the text of the report. *)
Definition body_of (report_df : list Row) : string :=
  let total_pairs := length report_df in
  let lines :=
    [ "Gaps Forex - Exécution : " +:+ executed_at;
      "Paires analysées : " +:+ pretty total_pairs;
      "";
      "Liste (pair | friday_close_time | friday_close | sunday_open_time | sunday_open | gap % | note):";
      "" ] ++ (format_row <$> report_df) in
  String.concat (String "010"%char EmptyString) lines.

(** Lines 134 to 171: what [main] does with the report. *)
Definition deliver (args : Args) (report_df : list Row) : list Event * result Z :=
  let body := body_of report_df in
  let csv_buf := to_csv report_df in
  if dry_run args then
    let outname := here ("forex_gaps_dryrun_" +:+ stamp +:+ ".csv") in
    ([WriteFile outname csv_buf; Print body], Ok 0)
  else if negb (all_set settings) then
    ([Print body], Ok 2)
  else
    let email_to_list := strip <$> split_comma (default "" (EMAIL_TO settings)) in
    let subject := "Gaps Forex - " +:+ executed_at in
    let '(sent, outcome) :=
      send_email subject body csv_buf
        (default "" (SMTP_HOST settings)) (default 0 (SMTP_PORT settings))
        (default "" (SMTP_USER settings)) (default "" (SMTP_PASS settings))
        (default "" (EMAIL_FROM settings)) email_to_list in
    (sent, _ ← outcome; Ok 0).

(** [main]; an exception of [build_report] is not caught and ends the run
    before anything is printed or sent. *)
Definition main (args : Args) : list Event * result Z :=
  let pairs := requested args in
  let rows := screen_all TZ download pairs in
  match build_report sort_values rows with
  | Ok report_df => deliver args report_df
  | Raise msg => ([], Raise msg)
  end.

End Main.

(** Frames for running the locator: a week without a Friday bar, a Friday
    close quoted twice at the same hour, a reopening bar quoted twice, and a
    Sunday that stops before 22:00. *)
Definition no_friday : DataFrame :=
  {| tz := None; has_Open := true;
     bars := [ mkBar (at_ 3 21) 1.75 1.8125;   (* Sun 22:00 local *)
               mkBar (at_ 0 12) 1.0 1.125 ]    (* Thu 13:00 local *) |}.

Definition friday_twice : DataFrame :=
  {| tz := None; has_Open := true;
     bars := [ mkBar (at_ 1 19) 1.0 1.125;     (* Fri 20:00 local *)
               mkBar (at_ 1 20) 1.25 1.375;    (* Fri 21:00 local *)
               mkBar (at_ 1 20) 1.25 1.5;      (* Fri 21:00 local, again *)
               mkBar (at_ 3 21) 1.75 1.8125 ]  (* Sun 22:00 local *) |}.

Definition reopen_twice : DataFrame :=
  {| tz := None; has_Open := true;
     bars := [ mkBar (at_ 1 20) 1.25 1.375;    (* Fri 21:00 local *)
               mkBar (at_ 3 21) 1.75 1.8125;   (* Sun 22:00 local *)
               mkBar (at_ 3 21) 1.625 1.8125;  (* Sun 22:00 local, again *)
               mkBar (at_ 3 22) 1.9375 2.0 ]   (* Sun 23:00 local *) |}.

Definition early_sunday : DataFrame :=
  {| tz := Some UTC; has_Open := false;
     bars := [ mkBar (at_ 3 10) 1.5 1.625;     (* Sun 11:00 local *)
               mkBar (at_ 1 20) 1.25 1.375;    (* Fri 21:00 local *)
               mkBar (at_ 3 8) 1.75 1.8125 ]   (* Sun 09:00 local *) |}.

(** [int] on plain decimal text, an environment that sets every mail
    variable but the port, the same with the port, and a transport that
    accepts every message, for running the delivery step. *)
Fixpoint digits (s : string) (acc : Z) : result Z :=
  match s with
  | EmptyString => Ok acc
  | String c s' =>
      let n := Z.of_nat (nat_of_ascii c) in
      if (48 <=? n) && (n <=? 57) then digits s' (10 * acc + (n - 48))
      else Raise "invalid literal for int() with base 10"
  end.

Definition int_decimal (s : string) : result Z :=
  match s with
  | EmptyString => Raise "invalid literal for int() with base 10"
  | _ => digits s 0
  end.

Definition environ_no_port : gmap string string :=
  {[ "SMTP_HOST" := "smtp.example.org"; "SMTP_USER" := "desk";
     "SMTP_PASS" := "secret"; "EMAIL_TO" := "a@example.org, b@example.org" ]}.

Definition environ_full : gmap string string :=
  <[ "SMTP_PORT" := "587" ]> environ_no_port.

Definition accepting : string -> Z -> string -> string -> Message -> result unit :=
  fun _ _ _ _ _ => Ok tt.

(** A provider that fails on one ticker, returns a frame with a repeated
    timestamp for another, and serves the rest. *)
Definition flaky (ticker : string) : result DataFrame :=
  if decide (ticker = "BADTICKER") then Raise "No data found, symbol may be delisted"
  else if decide (ticker = "DUPLICATED") then Ok friday_twice
  else Ok sample.

(** What the locator can return on a frame, case by case: the bar chosen
    on the Sunday side, and the five outcomes. *)
Definition sunday_choice (TZ : tzinfo) (df : DataFrame) (bs : Bar) : Prop :=
  earliest (at_reopen TZ) (bars df) bs
  ∨ ((forall b, b ∈ bars df -> ¬ at_reopen TZ b)
     ∧ earliest (on_sunday TZ) (bars df) bs).

Inductive located (TZ : tzinfo) (df : DataFrame) : result SessionPair -> Prop :=
| located_no_friday :
    (forall b, b ∈ bars df -> ¬ on_friday TZ b) ->
    located TZ df (Ok all_absent)
| located_friday_shared bf :
    latest (on_friday TZ) (bars df) bf ->
    shared (time bf) (bars df) ->
    located TZ df (Raise TypeError_series)
| located_sunday_shared bf bs :
    latest (on_friday TZ) (bars df) bf ->
    at_time (time bf) (bars df) = [bf] ->
    sunday_choice TZ df bs ->
    shared (time bs) (bars df) ->
    located TZ df (Raise TypeError_series)
| located_both bf bs :
    latest (on_friday TZ) (bars df) bf ->
    at_time (time bf) (bars df) = [bf] ->
    sunday_choice TZ df bs ->
    at_time (time bs) (bars df) = [bs] ->
    located TZ df
      (Ok {| f_time := Some (time bf); f_close := Some (Close bf);
             s_time := Some (time bs); s_open := Some (open_or_close df bs) |})
| located_friday_only bf :
    latest (on_friday TZ) (bars df) bf ->
    at_time (time bf) (bars df) = [bf] ->
    (forall b, b ∈ bars df -> ¬ on_sunday TZ b) ->
    located TZ df
      (Ok {| f_time := Some (time bf); f_close := Some (Close bf);
             s_time := None; s_open := None |}).

(** Two frames with the same columns and the same bars, in any order and
    with any zone on the index. *)
Definition same_bars (df df' : DataFrame) : Prop :=
  has_Open df = has_Open df' ∧ bars df ≡ₚ bars df'.

(** A window of twelve days that holds two weekends. *)
Definition two_weekends : DataFrame :=
  {| tz := None; has_Open := true;
     bars := [ mkBar (at_ 1 20) 1.25 1.375;     (* Fri 21:00 local, first week *)
               mkBar (at_ 3 21) 1.75 1.8125;    (* Sun 22:00 local, first week *)
               mkBar (at_ 8 20) 2.0 2.125;      (* Fri 21:00 local, second week *)
               mkBar (at_ 10 21) 2.25 2.375 ]   (* Sun 22:00 local, second week *) |}.

(** * Properties *)

Example locate_sample :
  locate CET sample =
  Ok {| f_time := Some (at_ 1 20); f_close := Some 1.375%float;
        s_time := Some (at_ 3 21); s_open := Some 1.75%float |}.
Proof. vm_compute. reflexivity. Qed.

Example locate_early_sunday :
  locate CET early_sunday =
  Ok {| f_time := Some (at_ 1 20); f_close := Some 1.375%float;
        s_time := Some (at_ 3 8); s_open := Some 1.8125%float |}.
Proof. vm_compute. reflexivity. Qed.

(** ** Floats *)

Ltac unfold_result := cbn [mbind mret result_bind result_ret] in *.

Lemma SFcompare_swap (x y : spec_float) :
  SFcompare y x = CompOpp <$> SFcompare x y.
Proof.
  destruct x as [sx|sx| |sx mx ex], y as [sy|sy| |sy my ey]; cbn;
    try destruct sx; try destruct sy; cbn; try reflexivity.
  - rewrite (Z.compare_antisym ey ex). destruct (ey ?= ex); cbn; try reflexivity.
    by rewrite (Pos.compare_cont_antisym mx my Eq).
  - rewrite (Z.compare_antisym ey ex). destruct (ey ?= ex); cbn; try reflexivity.
    by rewrite (Pos.compare_cont_antisym mx my Eq).
Qed.

Lemma isna_false_compare (x : float) :
  isna x = false -> SFcompare (Prim2SF x) (Prim2SF x) = Some Eq.
Proof.
  unfold isna. rewrite FloatAxioms.eqb_spec. unfold SFeqb.
  destruct (SFcompare (Prim2SF x) (Prim2SF x)) as [[]|]; cbn; congruence.
Qed.

Lemma compare_defined (x y : float) :
  isna x = false -> isna y = false ->
  exists c, SFcompare (Prim2SF x) (Prim2SF y) = Some c.
Proof.
  intros Hx%isna_false_compare Hy%isna_false_compare.
  destruct (Prim2SF x), (Prim2SF y); cbn in *; try discriminate; eauto.
Qed.

Lemma leb_total (x y : float) :
  isna x = false -> isna y = false ->
  PrimFloat.leb x y = false -> PrimFloat.leb y x = true.
Proof.
  intros Hx Hy. destruct (compare_defined x y Hx Hy) as [c Hc].
  rewrite !FloatAxioms.leb_spec. unfold SFleb.
  rewrite (SFcompare_swap (Prim2SF x) (Prim2SF y)), Hc.
  by destruct c.
Qed.

Lemma ltb_false_leb (x y : float) :
  isna x = false -> isna y = false ->
  PrimFloat.ltb x y = false -> PrimFloat.leb y x = true.
Proof.
  intros Hx Hy. destruct (compare_defined x y Hx Hy) as [c Hc].
  rewrite FloatAxioms.ltb_spec, FloatAxioms.leb_spec. unfold SFltb, SFleb.
  rewrite (SFcompare_swap (Prim2SF x) (Prim2SF y)), Hc.
  by destruct c.
Qed.

Lemma ltb_leb (x y : float) :
  PrimFloat.ltb x y = true -> PrimFloat.leb x y = true.
Proof.
  rewrite FloatAxioms.ltb_spec, FloatAxioms.leb_spec. unfold SFltb, SFleb.
  by destruct (SFcompare (Prim2SF x) (Prim2SF y)) as [[]|].
Qed.

Lemma SFcompare_rank (x y : spec_float) (c : comparison) :
  SFcompare x y = Some c -> lex3 (rank x) (rank y) = c.
Proof.
  destruct x as [sx|sx| |sx mx ex], y as [sy|sy| |sy my ey]; cbn;
    try destruct sx; try destruct sy; cbn; try congruence.
  - intros [= <-]. unfold lex3; cbn. rewrite Z.compare_opp.
    rewrite (Z.compare_antisym ey ex).
    by destruct (ey ?= ex).
  - by intros [= <-].
Qed.

Lemma SFcompare_defined (x y z : spec_float) (c c' : comparison) :
  SFcompare x y = Some c -> SFcompare y z = Some c' ->
  exists c'', SFcompare x z = Some c''.
Proof. destruct x, y, z; cbn; try discriminate; eauto. Qed.

Lemma lex3_trans (a b c : Z * Z * Z) :
  lex3 a b ≠ Gt -> lex3 b c ≠ Gt -> lex3 a c ≠ Gt.
Proof.
  destruct a as [[a1 a2] a3], b as [[b1 b2] b3], c as [[c1 c2] c3].
  unfold lex3; cbn.
  destruct (Z.compare_spec a1 b1), (Z.compare_spec b1 c1),
    (Z.compare_spec a1 c1); try lia; try congruence;
  destruct (Z.compare_spec a2 b2), (Z.compare_spec b2 c2),
    (Z.compare_spec a2 c2); try lia; try congruence;
  destruct (Z.compare_spec a3 b3), (Z.compare_spec b3 c3),
    (Z.compare_spec a3 c3); try lia; congruence.
Qed.

Lemma leb_trans (x y z : float) :
  PrimFloat.leb x y = true -> PrimFloat.leb y z = true ->
  PrimFloat.leb x z = true.
Proof.
  rewrite !FloatAxioms.leb_spec. unfold SFleb.
  destruct (SFcompare (Prim2SF x) (Prim2SF y)) as [c|] eqn:Exy; [|done].
  destruct (SFcompare (Prim2SF y) (Prim2SF z)) as [c'|] eqn:Eyz; [|by destruct c].
  destruct (SFcompare_defined _ _ _ _ _ Exy Eyz) as [c'' Exz]. rewrite Exz.
  apply SFcompare_rank in Exy, Eyz, Exz.
  intros Hc Hc'.
  assert (lex3 (rank (Prim2SF x)) (rank (Prim2SF z)) ≠ Gt).
  { apply (lex3_trans _ (rank (Prim2SF y))).
    - rewrite Exy. by destruct c.
    - rewrite Eyz. by destruct c'. }
  rewrite Exz in *. by destruct c''.
Qed.

Lemma abs_gap_not_na (r : Row) : isna (abs_gap r) = false.
Proof.
  unfold abs_gap, fillna.
  destruct (isna (PrimFloat.abs (cell (gap_pct r)))) eqn:E; [reflexivity | exact E].
Qed.

(** ** The insertion sort meets the contract of [sort_values] *)

Section Insertion.

Implicit Types (x y : Row * float) (l df : Keyed).

Lemma insert_before_perm x l : insert_before x l ≡ₚ x :: l.
Proof.
  induction l as [|y l IH]; cbn; [done|].
  destruct (PrimFloat.leb (y.2) (x.2)); [done|].
  rewrite IH. apply Permutation_swap.
Qed.

Lemma insert_before_hd x y l :
  key_ge y x -> HdRel key_ge y l -> HdRel key_ge y (insert_before x l).
Proof.
  intros Hyx Hl. destruct l as [|z l]; cbn; [by constructor|].
  destruct (PrimFloat.leb (z.2) (x.2)); constructor; [done|].
  by inversion Hl.
Qed.

Lemma insert_before_sorted x l :
  keyed_ok x -> Forall keyed_ok l ->
  Sorted key_ge l -> Sorted key_ge (insert_before x l).
Proof.
  intros Hx. induction l as [|y l IH]; intros Hl Hs; cbn.
  - repeat constructor.
  - inversion Hl as [|? ? Hy Hl']; subst. inversion Hs as [|? ? Hs' Hhd]; subst.
    destruct (PrimFloat.leb (y.2) (x.2)) eqn:E.
    + constructor; [done|]. by constructor.
    + constructor; [by apply IH|].
      apply insert_before_hd; [|done].
      by apply leb_total.
Qed.

Lemma stable_sort_spec : sort_values_spec stable_sort.
Proof.
  intros df. induction df as [|x df IH]; intros Hdf.
  - split; [done | constructor].
  - inversion Hdf as [|? ? Hx Hdf']; subst.
    destruct (IH Hdf') as [Hp Hs]. cbn. split.
    + by rewrite insert_before_perm, Hp.
    + apply insert_before_sorted; [done| |done].
      by rewrite Hp.
Qed.

End Insertion.

(** ** Report builder *)

Lemma keyed_rows_ok (rows : list Row) :
  Forall keyed_ok ((fun r => (r, abs_gap r)) <$> rows).
Proof.
  apply Forall_fmap, Forall_forall. intros r _. apply abs_gap_not_na.
Qed.

Lemma Sorted_keyed_fst (df : Keyed) :
  Forall (fun p => p.2 = abs_gap (p.1)) df ->
  Sorted key_ge df -> Sorted gap_ge (fst <$> df).
Proof.
  induction df as [|p df IH]; intros Hk Hs; cbn; [constructor|].
  inversion Hk as [|? ? Hp Hk']; subst. inversion Hs as [|? ? Hs' Hhd]; subst.
  constructor; [by apply IH|].
  destruct df as [|q df]; cbn; constructor.
  inversion Hhd as [|? ? Hpq]; subst. inversion Hk' as [|? ? Hq _]; subst.
  unfold gap_ge, key_ge in *. by rewrite <- Hp, <- Hq.
Qed.

#[global] Instance gap_ge_trans : Transitive gap_ge.
Proof. intros a b c Hab Hbc. unfold gap_ge in *. by apply (leb_trans _ (abs_gap b)). Qed.

Lemma numeric_gaps_spec (rows : list Row) :
  numeric_gaps rows = true <-> rows = [] ∨ exists r, r ∈ rows ∧ gap_pct r ≠ None.
Proof.
  unfold numeric_gaps. destruct rows as [|r0 rows]; [by split; [left|]|].
  rewrite existsb_exists. split.
  - intros (r & Hr%list_elem_of_In & Hgap). right. exists r. split; [done|].
    unfold has_gap in Hgap. by destruct (gap_pct r).
  - intros [? | (r & Hr & Hgap)]; [done|]. exists r. split.
    + by apply list_elem_of_In.
    + unfold has_gap. by destruct (gap_pct r).
Qed.

Lemma build_report_Ok sort_values (rows : list Row) :
  numeric_gaps rows = true ->
  build_report sort_values rows
  = Ok (fst <$> sort_values ((fun r => (r, abs_gap r)) <$> rows)).
Proof. intros H. unfold build_report. by rewrite H. Qed.

Lemma sorted_rows_perm sort_values (rows : list Row) :
  sort_values_spec sort_values ->
  fst <$> sort_values ((fun r => (r, abs_gap r)) <$> rows) ≡ₚ rows.
Proof.
  intros Hsort. destruct (Hsort _ (keyed_rows_ok rows)) as [Hp _].
  rewrite Hp, <- list_fmap_compose. by rewrite list_fmap_id.
Qed.

Lemma sorted_rows_sorted sort_values (rows : list Row) :
  sort_values_spec sort_values ->
  StronglySorted gap_ge (fst <$> sort_values ((fun r => (r, abs_gap r)) <$> rows)).
Proof.
  intros Hsort. destruct (Hsort _ (keyed_rows_ok rows)) as [Hp Hs].
  apply Sorted_StronglySorted; [apply _|].
  apply Sorted_keyed_fst; [|done].
  rewrite Hp. apply Forall_fmap, Forall_forall. by intros r _.
Qed.

Lemma example_rows_unique (out : list Row) :
  out ≡ₚ example_rows -> StronglySorted gap_ge out -> out = example_report.
Proof.
  intros Hp Hs%StronglySorted_Sorted. symmetry in Hp.
  apply permutations_Permutation in Hp.
  vm_compute in Hp.
  repeat (apply elem_of_cons in Hp as [-> | Hp]);
    try (by apply elem_of_nil in Hp);
    first [ reflexivity
          | exfalso;
            match type of Hs with
            | ?P => refine (bool_decide_eq_false_1 P _ Hs)
            end; vm_compute; reflexivity ].
Qed.

(** C2, as the code has it. When the gap column is numeric (no row at all,
    or a row with a gap), and whatever sort pandas applies within what it
    promises of [sort_values], the report holds the rows it was given, each
    unchanged, in descending order of the absolute gap: every row has a
    magnitude at least that of every row after it. A row without a gap
    counts as magnitude 0 in that order and still has no gap in the report.
    The four rows of the ordering scenario come out as -5.0, 2.0, 1.0,
    absent. The order of rows of equal magnitude is not part of it. *)
Theorem build_report_ordered (sort_values : Keyed -> Keyed) (rows : list Row) :
  sort_values_spec sort_values ->
  numeric_gaps rows = true ->
  exists report,
    build_report sort_values rows = Ok report
    ∧ report ≡ₚ rows
    ∧ StronglySorted gap_ge report
    ∧ (forall r, r ∈ report -> gap_pct r = None -> r ∈ rows ∧ abs_gap r = 0%float)
    ∧ build_report sort_values example_rows = Ok example_report.
Proof.
  intros Hsort Hnum. eexists. split; [by apply build_report_Ok|].
  split_and!.
  - by apply sorted_rows_perm.
  - by apply sorted_rows_sorted.
  - intros r Hr Hgap. split.
    + by rewrite <- (sorted_rows_perm sort_values rows Hsort).
    + unfold abs_gap. rewrite Hgap. reflexivity.
  - rewrite build_report_Ok by reflexivity. f_equal.
    apply example_rows_unique.
    + by apply sorted_rows_perm.
    + by apply sorted_rows_sorted.
Qed.

Lemma build_report_ordered_witness :
  exists report,
    build_report stable_sort tied_rows = Ok report
    ∧ report ≡ₚ tied_rows
    ∧ StronglySorted gap_ge report
    ∧ (forall r, r ∈ report -> gap_pct r = None ->
         r ∈ tied_rows ∧ abs_gap r = 0%float)
    ∧ build_report stable_sort example_rows = Ok example_report.
Proof.
  exact (build_report_ordered stable_sort tied_rows stable_sort_spec eq_refl).
Defined.

(** One step of a permutation between two explicit lists: the head of the
    left one is found in the right one and taken out of both. *)
Ltac perm_step :=
  lazymatch goal with
  | |- [] ≡ₚ [] => reflexivity
  | |- ?x :: ?l ≡ₚ ?r =>
      let rec go pre post :=
        lazymatch post with
        | x :: ?post' => apply (@Permutation_cons_app Row l pre post' x)
        | ?y :: ?post' => go (pre ++ [y]) post'
        end in
      go (@nil Row) r; cbn [app]
  end.

(** C2, as the specification states it, fails: the sort is not stable. On
    the twenty rows of [twenty_rows] the quicksort behind [sort_values]
    returns a report that holds the same rows in descending order of
    magnitude, and in which rows of equal magnitude are not in the order
    they were processed in. *)
Lemma build_report_not_stable :
  exists (report : list Row) (k : float),
    build_report sort_values_quicksort twenty_rows = Ok report
    ∧ report ≡ₚ twenty_rows
    ∧ StronglySorted gap_ge report
    ∧ ties k report ≠ ties k twenty_rows.
Proof.
  eexists; exists 0.5%float. split; [by vm_compute|]. split_and!.
  - vm_compute. repeat perm_step.
  - apply (bool_decide_unpack _). by vm_compute.
  - vm_compute. discriminate.
Qed.

Example build_report_all_absent :
  build_report stable_sort [with_gap "A" None; with_gap "B" None]
  = Raise "bad operand type for abs(): 'NoneType'"
  ∧ build_report stable_sort [] = Ok [].
Proof. split; reflexivity. Qed.

(** ** The per-ticker loop *)

Lemma compute_gap_refines (fc so : option float) :
  compute_gap fc so = Ok (spec_gap_pct fc so).
Proof.
  destruct fc as [f|], so as [s|]; cbn; try reflexivity.
  unfold py_ne0, py_truediv. by destruct (PrimFloat.eqb f 0).
Qed.

(** C3. The gap is computed without ever raising; it is absent when a price
    is missing or the Friday close is zero (of either sign), and it is
    [(sunday_open - friday_close) / friday_close * 100.0], sign included,
    when both prices are there and the Friday close is not zero. *)
Theorem compute_gap_spec (fc so : option float) :
  compute_gap fc so = Ok (spec_gap_pct fc so)
  ∧ (fc = None ∨ so = None -> compute_gap fc so = Ok None)
  ∧ (forall f, fc = Some f -> PrimFloat.eqb f 0%float = true ->
       compute_gap fc so = Ok None)
  ∧ (forall f s, fc = Some f -> so = Some s -> PrimFloat.eqb f 0%float = false ->
       compute_gap fc so =
       Ok (Some (PrimFloat.mul (PrimFloat.div (PrimFloat.sub s f) f) 100%float)))
  ∧ compute_gap (Some 0%float) so = Ok None
  ∧ compute_gap (Some (-0)%float) so = Ok None
  ∧ compute_gap (Some 100%float) (Some 101.5%float) = Ok (Some 1.5%float)
  ∧ compute_gap (Some 100%float) (Some 98%float) = Ok (Some (-2)%float).
Proof.
  split_and!; try (rewrite compute_gap_refines).
  - reflexivity.
  - intros [-> | ->]; [reflexivity | by destruct fc].
  - intros f -> Hf. cbn. rewrite Hf. by destruct so.
  - intros f s -> -> Hf. cbn. by rewrite Hf.
  - by destruct so.
  - by destruct so.
  - reflexivity.
  - reflexivity.
Qed.

Lemma compute_gap_spec_witness :
  compute_gap (Some 4%float) (Some 5%float) = Ok (Some 25%float).
Proof.
  destruct (compute_gap_spec (Some 4%float) (Some 5%float))
    as (_ & _ & _ & H & _).
  exact (H 4%float 5%float eq_refl eq_refl eq_refl).
Defined.

(** ** Frames *)

Section Frames.

Implicit Types (df : DataFrame) (b : Bar) (t : Timestamp).

Lemma empty_false_iff df : empty df = false <-> bars df ≠ [].
Proof. unfold empty. by destruct (bars df). Qed.

Lemma empty_true_iff df : empty df = true <-> bars df = [].
Proof. unfold empty. by destruct (bars df). Qed.

Lemma bars_sort_index df : bars (sort_index df) ≡ₚ bars df.
Proof. apply merge_sort_Permutation. Qed.

Lemma elem_of_select (P : Timestamp -> Prop) `{!forall t, Decision (P t)} df b :
  b ∈ bars (select P df) <-> P (time b) ∧ b ∈ bars df.
Proof. unfold select; cbn. by rewrite list_elem_of_filter. Qed.

Lemma empty_select_true (P : Timestamp -> Prop) `{!forall t, Decision (P t)} df :
  (forall b, b ∈ bars df -> ¬ P (time b)) -> empty (select P df) = true.
Proof.
  intros Hno. apply empty_true_iff.
  destruct (bars (select P df)) as [|b l] eqn:E; [done|].
  assert (Hb : b ∈ bars (select P df)) by (rewrite E; left).
  apply elem_of_select in Hb as [HP Hb]. by destruct (Hno b Hb).
Qed.

Lemma empty_select_false (P : Timestamp -> Prop) `{!forall t, Decision (P t)} df b :
  b ∈ bars df -> P (time b) -> empty (select P df) = false.
Proof.
  intros Hb HP. apply empty_false_iff. intros E.
  assert (Hin : b ∈ bars (select P df)) by by apply elem_of_select.
  rewrite E in Hin. by apply elem_of_nil in Hin.
Qed.

Lemma foldr_max_spec (l : list Bar) t0 :
  let m := foldr (fun b' m => Z.max (time b') m) t0 l in
  (m = t0 ∨ exists b, b ∈ l ∧ time b = m) ∧ t0 <= m ∧ forall b, b ∈ l -> time b <= m.
Proof.
  induction l as [|a l IH]; cbn.
  - split_and!; [by left | lia |]. intros b Hb. by apply elem_of_nil in Hb.
  - destruct IH as (Hm & H0 & Hall). split_and!.
    + destruct (Z.max_spec (time a) (foldr (fun b' m => Z.max (time b') m) t0 l))
        as [[_ ->] | [_ ->]].
      * destruct Hm as [Hm | (b & Hb & Hm)]; [by left | right].
        exists b. split; [by right | done].
      * right. exists a. split; [by left | done].
    + lia.
    + intros b [-> | Hb]%elem_of_cons; [lia|]. specialize (Hall b Hb). lia.
Qed.

Lemma foldr_min_spec (l : list Bar) t0 :
  let m := foldr (fun b' m => Z.min (time b') m) t0 l in
  (m = t0 ∨ exists b, b ∈ l ∧ time b = m) ∧ m <= t0 ∧ forall b, b ∈ l -> m <= time b.
Proof.
  induction l as [|a l IH]; cbn.
  - split_and!; [by left | lia |]. intros b Hb. by apply elem_of_nil in Hb.
  - destruct IH as (Hm & H0 & Hall). split_and!.
    + destruct (Z.min_spec (time a) (foldr (fun b' m => Z.min (time b') m) t0 l))
        as [[_ ->] | [_ ->]].
      * right. exists a. split; [by left | done].
      * destruct Hm as [Hm | (b & Hb & Hm)]; [by left | right].
        exists b. split; [by right | done].
    + lia.
    + intros b [-> | Hb]%elem_of_cons; [lia|]. specialize (Hall b Hb). lia.
Qed.

Lemma index_max_spec df :
  bars df ≠ [] ->
  (exists b, b ∈ bars df ∧ time b = index_max df)
  ∧ forall b, b ∈ bars df -> time b <= index_max df.
Proof.
  unfold index_max. destruct (bars df) as [|a l]; [done|]. intros _.
  destruct (foldr_max_spec l (time a)) as (Hm & H0 & Hall). split.
  - destruct Hm as [Hm | (b & Hb & Hm)].
    + exists a. split; [by left | done].
    + exists b. split; [by right | done].
  - intros b [-> | Hb]%elem_of_cons; [done | by apply Hall].
Qed.

Lemma index_min_spec df :
  bars df ≠ [] ->
  (exists b, b ∈ bars df ∧ time b = index_min df)
  ∧ forall b, b ∈ bars df -> index_min df <= time b.
Proof.
  unfold index_min. destruct (bars df) as [|a l]; [done|]. intros _.
  destruct (foldr_min_spec l (time a)) as (Hm & H0 & Hall). split.
  - destruct Hm as [Hm | (b & Hb & Hm)].
    + exists a. split; [by left | done].
    + exists b. split; [by right | done].
  - intros b [-> | Hb]%elem_of_cons; [done | by apply Hall].
Qed.

Lemma index_max_select (P : Timestamp -> Prop) `{!forall t, Decision (P t)} df b :
  b ∈ bars df -> P (time b) ->
  (forall b', b' ∈ bars df -> P (time b') -> time b' <= time b) ->
  index_max (select P df) = time b.
Proof.
  intros Hb HP Hmax.
  assert (Hin : b ∈ bars (select P df)) by by apply elem_of_select.
  destruct (index_max_spec (select P df)) as [(b' & Hb' & E) Hall].
  { intros E. rewrite E in Hin. by apply elem_of_nil in Hin. }
  apply elem_of_select in Hb' as [HP' Hb'].
  specialize (Hall b Hin). specialize (Hmax b' Hb' HP'). lia.
Qed.

Lemma index_min_select (P : Timestamp -> Prop) `{!forall t, Decision (P t)} df b :
  b ∈ bars df -> P (time b) ->
  (forall b', b' ∈ bars df -> P (time b') -> time b <= time b') ->
  index_min (select P df) = time b.
Proof.
  intros Hb HP Hmin.
  assert (Hin : b ∈ bars (select P df)) by by apply elem_of_select.
  destruct (index_min_spec (select P df)) as [(b' & Hb' & E) Hall].
  { intros E. rewrite E in Hin. by apply elem_of_nil in Hin. }
  apply elem_of_select in Hb' as [HP' Hb'].
  specialize (Hall b Hin). specialize (Hmin b' Hb' HP'). lia.
Qed.

Lemma loc_once df t (col : Bar -> float) b :
  at_time t (bars df) ≡ₚ [b] -> loc df t col ≫= float_of = Ok (col b).
Proof.
  intros E%Permutation_singleton_r. unfold loc. fold (at_time t (bars df)).
  by rewrite E.
Qed.

Lemma loc_shared df t (col : Bar -> float) :
  shared t (bars df) -> loc df t col ≫= float_of = Raise TypeError_series.
Proof.
  unfold shared, loc. fold (at_time t (bars df)).
  destruct (at_time t (bars df)) as [|a [|a' l]]; cbn; [lia | lia | done].
Qed.

Lemma at_time_select (P : Timestamp -> Prop) `{!forall t, Decision (P t)} df t :
  P t -> at_time t (bars (select P df)) = at_time t (bars df).
Proof.
  intros HP. unfold at_time, select; cbn.
  apply list_filter_filter_l. by intros b' ->.
Qed.

Lemma at_time_sort_index df t :
  at_time t (bars (sort_index df)) ≡ₚ at_time t (bars df).
Proof. unfold at_time. by rewrite bars_sort_index. Qed.

End Frames.

(** ** Session boundary locator *)

Section LocateSteps.

Variable TZ : tzinfo.

Implicit Types (df : DataFrame) (b : Bar) (t : Timestamp).

Lemma locate_eq df :
  locate TZ df =
  if empty df then Ok all_absent else
  let friday_rows := select (fun t => weekday TZ t = 4) (normalized TZ df) in
  if empty friday_rows then Ok all_absent else
  friday_close ← loc friday_rows (index_max friday_rows) Close ≫= float_of;
  sunday_step TZ df (index_max friday_rows) friday_close.
Proof. unfold locate. by destruct (tz df). Qed.

Lemma normalized_elem df b : b ∈ bars (normalized TZ df) -> b ∈ bars df.
Proof. unfold normalized. by rewrite bars_sort_index. Qed.

Lemma elem_normalized df b : b ∈ bars df -> b ∈ bars (normalized TZ df).
Proof. unfold normalized. by rewrite bars_sort_index. Qed.

Lemma at_time_normalized df t :
  at_time t (bars (normalized TZ df)) ≡ₚ at_time t (bars df).
Proof. unfold normalized. by rewrite at_time_sort_index. Qed.

Lemma loc_normalized_once df t (col : Bar -> float) b :
  at_time t (bars df) = [b] ->
  loc (normalized TZ df) t col ≫= float_of = Ok (col b).
Proof. intros E. apply loc_once. by rewrite at_time_normalized, E. Qed.

Lemma loc_normalized_shared df t (col : Bar -> float) :
  shared t (bars df) ->
  loc (normalized TZ df) t col ≫= float_of = Raise TypeError_series.
Proof.
  intros H. apply loc_shared. unfold shared in *.
  by rewrite at_time_normalized.
Qed.

Lemma locate_no_friday_rows df :
  (forall b, b ∈ bars df -> ¬ on_friday TZ b) -> locate TZ df = Ok all_absent.
Proof.
  intros Hno. rewrite locate_eq. destruct (empty df); [done|]. cbn zeta.
  rewrite empty_select_true; [done|].
  intros b Hb%normalized_elem. exact (Hno b Hb).
Qed.

Lemma locate_friday_step df bf :
  latest (on_friday TZ) (bars df) bf ->
  locate TZ df =
  friday_close ← loc (normalized TZ df) (time bf) Close ≫= float_of;
  sunday_step TZ df (time bf) friday_close.
Proof.
  intros (Hb & Hfri & Hmax). rewrite locate_eq.
  assert (empty df = false) as ->.
  { apply empty_false_iff. intros E. rewrite E in Hb. by apply elem_of_nil in Hb. }
  cbn zeta.
  rewrite (empty_select_false _ _ bf); [|by apply elem_normalized | done].
  rewrite (index_max_select _ _ bf); [|by apply elem_normalized | done |].
  - unfold loc. fold (at_time (time bf) (bars (normalized TZ df))).
    fold (at_time (time bf)
            (bars (select (fun t => weekday TZ t = 4) (normalized TZ df)))).
    by rewrite at_time_select.
  - intros b' Hb'%normalized_elem Hfri'. by apply Hmax.
Qed.

Lemma sunday_step_reopen df ft fc bs :
  earliest (at_reopen TZ) (bars df) bs ->
  sunday_step TZ df ft fc =
  sunday_open ← loc (normalized TZ df) (time bs) (open_or_close df) ≫= float_of;
  Ok {| f_time := Some ft; f_close := Some fc;
        s_time := Some (time bs); s_open := Some sunday_open |}.
Proof.
  intros (Hb & Hre & Hmin). unfold sunday_step. cbn zeta.
  rewrite (empty_select_false _ _ bs); [|by apply elem_normalized | done].
  rewrite (index_min_select _ _ bs); [done | by apply elem_normalized | done |].
  intros b' Hb'%normalized_elem Hre'. by apply Hmin.
Qed.

Lemma sunday_step_fallback df ft fc bs :
  (forall b, b ∈ bars df -> ¬ at_reopen TZ b) ->
  earliest (on_sunday TZ) (bars df) bs ->
  sunday_step TZ df ft fc =
  sunday_open ← loc (normalized TZ df) (time bs) (open_or_close df) ≫= float_of;
  Ok {| f_time := Some ft; f_close := Some fc;
        s_time := Some (time bs); s_open := Some sunday_open |}.
Proof.
  intros Hno (Hb & Hsun & Hmin). unfold sunday_step. cbn zeta.
  rewrite empty_select_true.
  2:{ intros b Hb'%normalized_elem. exact (Hno b Hb'). }
  rewrite (empty_select_false _ _ bs); [|by apply elem_normalized | done].
  rewrite (index_min_select _ _ bs); [done | by apply elem_normalized | done |].
  intros b' Hb'%normalized_elem Hsun'. by apply Hmin.
Qed.

Lemma sunday_step_no_sunday df ft fc :
  (forall b, b ∈ bars df -> ¬ on_sunday TZ b) ->
  sunday_step TZ df ft fc =
  Ok {| f_time := Some ft; f_close := Some fc; s_time := None; s_open := None |}.
Proof.
  intros Hno. unfold sunday_step. cbn zeta.
  rewrite empty_select_true.
  2:{ intros b Hb%normalized_elem [Hsun _]. by apply (Hno b). }
  rewrite empty_select_true; [done|].
  intros b Hb%normalized_elem. exact (Hno b Hb).
Qed.

End LocateSteps.

(** ** What the locator selects *)

Lemma latest_exists (P : Bar -> Prop) `{!forall b, Decision (P b)} (l : list Bar) :
  (exists b, b ∈ l ∧ P b) -> exists b, latest P l b.
Proof.
  intros (b0 & Hb0 & HP0).
  pose (F := {| tz := None; has_Open := false; bars := filter P l |}).
  assert (Hin : b0 ∈ bars F) by (apply list_elem_of_filter; done).
  destruct (index_max_spec F) as [(b & Hb & E) Hall].
  { intros E. rewrite E in Hin. by apply elem_of_nil in Hin. }
  apply list_elem_of_filter in Hb as [HP Hb].
  exists b. split_and!; [done | done |].
  intros b' Hb' HP'. rewrite E. apply Hall. by apply list_elem_of_filter.
Qed.

Lemma earliest_exists (P : Bar -> Prop) `{!forall b, Decision (P b)} (l : list Bar) :
  (exists b, b ∈ l ∧ P b) -> exists b, earliest P l b.
Proof.
  intros (b0 & Hb0 & HP0).
  pose (F := {| tz := None; has_Open := false; bars := filter P l |}).
  assert (Hin : b0 ∈ bars F) by (apply list_elem_of_filter; done).
  destruct (index_min_spec F) as [(b & Hb & E) Hall].
  { intros E. rewrite E in Hin. by apply elem_of_nil in Hin. }
  apply list_elem_of_filter in Hb as [HP Hb].
  exists b. split_and!; [done | done |].
  intros b' Hb' HP'. rewrite E. apply Hall. by apply list_elem_of_filter.
Qed.

Lemma at_time_absent (l : list Bar) t : t ∉ time <$> l -> at_time t l = [].
Proof.
  induction l as [|a l IH]; [done|]. rewrite fmap_cons, not_elem_of_cons.
  intros [Hne Hl]. unfold at_time. rewrite filter_cons_False by done.
  by apply IH.
Qed.

Lemma at_time_unique (l : list Bar) (b : Bar) :
  NoDup (time <$> l) -> b ∈ l -> at_time (time b) l = [b].
Proof.
  induction l as [|a l IH]; intros Hnd Hb; [by apply elem_of_nil in Hb|].
  rewrite fmap_cons in Hnd. apply NoDup_cons in Hnd as [Ha Hnd].
  unfold at_time. apply elem_of_cons in Hb as [-> | Hb].
  - rewrite filter_cons_True by done. f_equal. by apply at_time_absent.
  - rewrite filter_cons_False.
    + by apply IH.
    + intros E. apply Ha. rewrite E. by apply list_elem_of_fmap_2.
Qed.

Lemma same_time_same_bar (l : list Bar) (b b' : Bar) :
  NoDup (time <$> l) -> b ∈ l -> b' ∈ l -> time b' = time b -> b' = b.
Proof.
  intros Hnd Hb Hb' E.
  assert (Hin : b' ∈ at_time (time b) l) by (apply list_elem_of_filter; done).
  rewrite (at_time_unique l b Hnd Hb) in Hin.
  by apply list_elem_of_singleton in Hin.
Qed.

Lemma latest_unique (P : Bar -> Prop) (l : list Bar) (b b' : Bar) :
  NoDup (time <$> l) -> latest P l b -> latest P l b' -> b' = b.
Proof.
  intros Hnd (Hb & HP & Hmax) (Hb' & HP' & Hmax').
  apply (same_time_same_bar l); [done..|].
  specialize (Hmax b' Hb' HP'). specialize (Hmax' b Hb HP). lia.
Qed.

Lemma earliest_unique (P : Bar -> Prop) (l : list Bar) (b b' : Bar) :
  NoDup (time <$> l) -> earliest P l b -> earliest P l b' -> b' = b.
Proof.
  intros Hnd (Hb & HP & Hmin) (Hb' & HP' & Hmin').
  apply (same_time_same_bar l); [done..|].
  specialize (Hmin b' Hb' HP'). specialize (Hmin' b Hb HP). lia.
Qed.

(** C4. When no bar of the series falls on a Friday in the reference zone,
    the locator returns the four fields absent, whether or not the series
    has Sunday bars: the Sunday side is not looked at. *)
Theorem locate_without_friday (TZ : tzinfo) (df : DataFrame) :
  bars df ≠ [] ->
  (forall b, b ∈ bars df -> ¬ on_friday TZ b) ->
  locate TZ df = Ok all_absent.
Proof. intros _. apply locate_no_friday_rows. Qed.

Lemma locate_without_friday_witness :
  (exists b, b ∈ bars no_friday ∧ at_reopen CET b)
  ∧ locate CET no_friday = Ok all_absent.
Proof.
  split.
  - exists (mkBar (at_ 3 21) 1.75 1.8125). split; [left | by vm_compute].
  - apply (locate_without_friday CET no_friday); [discriminate|].
    apply Forall_forall. repeat constructor; by vm_compute.
Defined.

(** C5. On a series whose timestamps are all different and which has a
    Friday bar, the locator takes the Friday bar of greatest timestamp, the
    only one there is, and returns its close. It takes the earliest Sunday
    bar of hour 22 or later when there is one, else the earliest Sunday bar
    of any hour, again the only one, and returns its open (its close when
    the frame has no open column). Without any Sunday bar the Sunday fields
    are absent. *)
Theorem locate_selects (TZ : tzinfo) (df : DataFrame) :
  NoDup (time <$> bars df) ->
  (exists b, b ∈ bars df ∧ on_friday TZ b) ->
  exists bf, latest (on_friday TZ) (bars df) bf
  ∧ (forall b, latest (on_friday TZ) (bars df) b -> b = bf)
  ∧ ((exists b, b ∈ bars df ∧ at_reopen TZ b) ->
       exists bs, earliest (at_reopen TZ) (bars df) bs
       ∧ (forall b, earliest (at_reopen TZ) (bars df) b -> b = bs)
       ∧ locate TZ df =
         Ok {| f_time := Some (time bf); f_close := Some (Close bf);
               s_time := Some (time bs); s_open := Some (open_or_close df bs) |})
  ∧ ((forall b, b ∈ bars df -> ¬ at_reopen TZ b) ->
     (exists b, b ∈ bars df ∧ on_sunday TZ b) ->
       exists bs, earliest (on_sunday TZ) (bars df) bs
       ∧ (forall b, earliest (on_sunday TZ) (bars df) b -> b = bs)
       ∧ locate TZ df =
         Ok {| f_time := Some (time bf); f_close := Some (Close bf);
               s_time := Some (time bs); s_open := Some (open_or_close df bs) |})
  ∧ ((forall b, b ∈ bars df -> ¬ on_sunday TZ b) ->
       locate TZ df =
       Ok {| f_time := Some (time bf); f_close := Some (Close bf);
             s_time := None; s_open := None |})
  ∧ (has_Open df = true -> forall b, open_or_close df b = Open b).
Proof.
  intros Hnd Hfri.
  destruct (latest_exists (on_friday TZ) (bars df) Hfri) as [bf Hbf].
  exists bf. split; [done|].
  split; [intros b Hb; by apply (latest_unique _ _ _ _ Hnd Hbf)|].
  assert (Hstep : locate TZ df = sunday_step TZ df (time bf) (Close bf)).
  { rewrite (locate_friday_step TZ df bf Hbf).
    rewrite (loc_normalized_once TZ df (time bf) Close bf); [done|].
    apply at_time_unique; [done | apply Hbf]. }
  split_and!.
  - intros Hre.
    destruct (earliest_exists (at_reopen TZ) (bars df) Hre) as [bs Hbs].
    exists bs. split; [done|].
    split; [intros b Hb; by apply (earliest_unique _ _ _ _ Hnd Hbs)|].
    rewrite Hstep, (sunday_step_reopen TZ df _ _ bs Hbs).
    rewrite (loc_normalized_once TZ df (time bs) _ bs); [done|].
    apply at_time_unique; [done | apply Hbs].
  - intros Hno Hsun.
    destruct (earliest_exists (on_sunday TZ) (bars df) Hsun) as [bs Hbs].
    exists bs. split; [done|].
    split; [intros b Hb; by apply (earliest_unique _ _ _ _ Hnd Hbs)|].
    rewrite Hstep, (sunday_step_fallback TZ df _ _ bs Hno Hbs).
    rewrite (loc_normalized_once TZ df (time bs) _ bs); [done|].
    apply at_time_unique; [done | apply Hbs].
  - intros Hno. by rewrite Hstep, (sunday_step_no_sunday TZ df _ _ Hno).
  - intros Hopen b. unfold open_or_close. by rewrite Hopen.
Qed.

Lemma locate_selects_witness :
  exists bf, latest (on_friday CET) (bars sample) bf
  ∧ (forall b, latest (on_friday CET) (bars sample) b -> b = bf)
  ∧ ((exists b, b ∈ bars sample ∧ at_reopen CET b) ->
       exists bs, earliest (at_reopen CET) (bars sample) bs
       ∧ (forall b, earliest (at_reopen CET) (bars sample) b -> b = bs)
       ∧ locate CET sample =
         Ok {| f_time := Some (time bf); f_close := Some (Close bf);
               s_time := Some (time bs); s_open := Some (open_or_close sample bs) |})
  ∧ ((forall b, b ∈ bars sample -> ¬ at_reopen CET b) ->
     (exists b, b ∈ bars sample ∧ on_sunday CET b) ->
       exists bs, earliest (on_sunday CET) (bars sample) bs
       ∧ (forall b, earliest (on_sunday CET) (bars sample) b -> b = bs)
       ∧ locate CET sample =
         Ok {| f_time := Some (time bf); f_close := Some (Close bf);
               s_time := Some (time bs); s_open := Some (open_or_close sample bs) |})
  ∧ ((forall b, b ∈ bars sample -> ¬ on_sunday CET b) ->
       locate CET sample =
       Ok {| f_time := Some (time bf); f_close := Some (Close bf);
             s_time := None; s_open := None |})
  ∧ (has_Open sample = true -> forall b, open_or_close sample b = Open b).
Proof.
  apply (locate_selects CET sample).
  - apply (bool_decide_unpack _). by vm_compute.
  - exists (mkBar (at_ 1 19) 1.0 1.125). split; [|by vm_compute].
    right; left.
Defined.




(** ** Rows of the loop *)

Section LoopFacts.

Variable TZ : tzinfo.
Variable download : Provider.

Lemma locate_prerequisite (df : DataFrame) (sp : SessionPair) :
  locate TZ df = Ok sp -> f_close sp = None -> sp = all_absent.
Proof.
  rewrite locate_eq. destruct (empty df); [congruence|]. cbn zeta.
  destruct (empty (select _ _)); [congruence|].
  destruct (loc _ _ Close ≫= float_of) as [fc|msg]; unfold_result; [|done].
  unfold sunday_step. cbn zeta.
  repeat match goal with
         | |- context [if ?c then _ else _] => destruct c
         | |- context [loc ?d ?t ?col ≫= float_of] =>
             destruct (loc d t col ≫= float_of); unfold_result
         end;
    intros [= <-]; done.
Qed.

Lemma screen_eq (ticker : string) :
  screen TZ download ticker =
  match locate TZ (yf_download_safe download ticker) with
  | Ok sp =>
      {| pair := ticker;
         friday_time := f_time sp; friday_close := f_close sp;
         sunday_time := s_time sp; sunday_open := s_open sp;
         gap_pct := spec_gap_pct (f_close sp) (s_open sp);
         note := match s_open sp, f_close sp with
                 | None, _ => Some "no sunday open"
                 | Some _, None => Some "no friday data"
                 | Some _, Some _ => None
                 end |}
  | Raise msg => error_row ticker msg
  end.
Proof.
  unfold screen, try_ticker, get_friday_close_and_sunday_open.
  destruct (locate TZ (yf_download_safe download ticker)) as [sp|msg];
    unfold_result; [|done].
  rewrite compute_gap_refines. unfold_result.
  by destruct (s_open sp), (f_close sp).
Qed.

Lemma screen_all_fmap (pairs : list string) :
  screen_all TZ download pairs = screen TZ download <$> pairs.
Proof.
  unfold screen_all.
  assert (H : forall acc,
    foldl (fun rows ticker => rows ++ [screen TZ download ticker]) acc pairs
    = acc ++ (screen TZ download <$> pairs)).
  { induction pairs as [|t l IH]; intros acc; cbn.
    - by rewrite app_nil_r.
    - rewrite IH. by rewrite <- app_assoc. }
  apply H.
Qed.

Lemma screen_pair (ticker : string) : pair (screen TZ download ticker) = ticker.
Proof.
  rewrite screen_eq. by destruct (locate TZ (yf_download_safe download ticker)).
Qed.

End LoopFacts.

(** C1. The note ["no friday data"] is never what a row carries. A ticker
    whose provider response is empty, or has no Friday bar, gets the four
    fields absent and the note ["no sunday open"]: the second test of the
    loop overwrites the note the first one set, since the Sunday open is
    absent whenever the Friday close is. With a Friday close, the note is
    ["no sunday open"] when the Sunday open is absent and there is no note
    when it is present. *)
Theorem note_no_friday_data_lost (TZ : tzinfo) (ticker : string) :
  screen TZ (fun _ => Ok empty_frame) ticker =
    {| pair := ticker; friday_time := None; friday_close := None;
       sunday_time := None; sunday_open := None; gap_pct := None;
       note := Some "no sunday open" |}
  ∧ screen CET (fun _ => Ok no_friday) ticker =
    {| pair := ticker; friday_time := None; friday_close := None;
       sunday_time := None; sunday_open := None; gap_pct := None;
       note := Some "no sunday open" |}
  ∧ forall download : Provider,
      let row := screen TZ download ticker in
      note row ≠ Some "no friday data"
      ∧ (friday_close row ≠ None -> sunday_open row = None ->
         note row = Some "no sunday open")
      ∧ (friday_close row ≠ None -> sunday_open row ≠ None -> note row = None).
Proof.
  split_and!; [reflexivity | reflexivity |].
  intros download row. unfold row. rewrite screen_eq.
  destruct (locate TZ (yf_download_safe download ticker)) as [sp|msg] eqn:E.
  - cbn. destruct (s_open sp) eqn:Es, (f_close sp) eqn:Ef; try done.
    apply (locate_prerequisite TZ _ _ E) in Ef. subst sp. done.
  - cbn. split_and!; [discriminate | done | done].
Qed.

Lemma build_report_rows sort_values (rows report : list Row) :
  sort_values_spec sort_values ->
  build_report sort_values rows = Ok report -> report ≡ₚ rows.
Proof.
  intros Hsort. unfold build_report.
  destruct (numeric_gaps rows); [|done].
  intros [= <-]. by apply sorted_rows_perm.
Qed.

(** C10. A row that carries a gap, among the rows the loop appends and so
    among the rows of the report built from them, carries both prices, with
    a Friday close that is not zero, and its gap is the one computed from
    them. *)
Theorem gap_needs_both_prices (TZ : tzinfo) (download : Provider)
    (pairs : list string) (sort_values : Keyed -> Keyed)
    (report : list Row) (r : Row) (g : float) :
  r ∈ screen_all TZ download pairs
  ∨ (sort_values_spec sort_values
     ∧ build_report sort_values (screen_all TZ download pairs) = Ok report
     ∧ r ∈ report) ->
  gap_pct r = Some g ->
  exists f s,
    friday_close r = Some f ∧ sunday_open r = Some s
    ∧ PrimFloat.eqb f 0%float = false
    ∧ g = PrimFloat.mul (PrimFloat.div (PrimFloat.sub s f) f) 100%float.
Proof.
  intros Hr.
  assert (Hin : r ∈ screen_all TZ download pairs).
  { destruct Hr as [Hr | (Hsort & Hrep & Hr)]; [done|].
    by rewrite <- (build_report_rows _ _ _ Hsort Hrep). }
  clear Hr. revert Hin.
  rewrite screen_all_fmap. intros (ticker & -> & _)%list_elem_of_fmap.
  rewrite screen_eq.
  destruct (locate TZ (yf_download_safe download ticker)) as [sp|msg]; cbn;
    [|done].
  destruct (f_close sp) as [f|], (s_open sp) as [s|]; cbn; try done.
  destruct (PrimFloat.eqb f 0) eqn:E; [done|].
  intros [= <-]. by exists f, s.
Qed.

Lemma gap_needs_both_prices_witness :
  exists f s,
    friday_close (screen CET flaky "EURUSD=X") = Some f
    ∧ sunday_open (screen CET flaky "EURUSD=X") = Some s
    ∧ PrimFloat.eqb f 0%float = false
    ∧ PrimFloat.mul (PrimFloat.div (PrimFloat.sub 1.75 1.375) 1.375) 100%float
      = PrimFloat.mul (PrimFloat.div (PrimFloat.sub s f) f) 100%float.
Proof.
  apply (gap_needs_both_prices CET flaky ["BADTICKER"; "EURUSD=X"] stable_sort
           [screen CET flaky "EURUSD=X"; screen CET flaky "BADTICKER"]).
  - right. split_and!; [apply stable_sort_spec | reflexivity | left].
  - reflexivity.
Defined.




(** ** Delivery *)

Lemma all_set_false (c : Settings) :
  SMTP_HOST c = None ∨ SMTP_PORT c = None ∨ SMTP_USER c = None
  ∨ SMTP_PASS c = None ∨ EMAIL_FROM c = None ∨ EMAIL_TO c = None ->
  all_set c = false.
Proof.
  unfold all_set. intros H.
  destruct H as [H | [H | [H | [H | [H | H]]]]]; rewrite H; cbn;
    rewrite ?andb_false_r; reflexivity.
Qed.

(** C8, at the input where the code leaves it. A live run with the
    password unset, over tickers for which the provider has no data, does
    not print the body and does not return 2: no row has a gap, so
    [build_report] raises the [TypeError] of [abs()] before the settings are
    looked at, and [main] ends with that exception, nothing printed and no
    exit code, whatever the sort and the mail transport. *)
Theorem live_run_without_gap_raises (sort_values : Keyed -> Keyed)
    (transport : string -> Z -> string -> string -> Message -> result unit) :
  let settings :=
    {| SMTP_HOST := Some "smtp.example.org"; SMTP_PORT := Some 587;
       SMTP_USER := Some "desk"; SMTP_PASS := None;
       EMAIL_FROM := Some "desk"; EMAIL_TO := Some "a@example.org" |} in
  let args := {| dry_run := false; pairs := None |} in
  screen_all CET flaky (requested ["BADTICKER"] args)
  = [ {| pair := "BADTICKER"; friday_time := None; friday_close := None;
         sunday_time := None; sunday_open := None; gap_pct := None;
         note := Some "no sunday open" |} ]
  ∧ all_set settings = false
  ∧ main CET flaky sort_values ["BADTICKER"] settings
      "2024-01-08 07:00:00 CET" "20240108_0700" id (fun r => pair r)
      (fun _ => "csv") transport args
    = ([], Raise "bad operand type for abs(): 'NoneType'").
Proof. intros settings args. split_and!; reflexivity. Qed.

Example live_run_sends :
  exists c,
    load_settings int_decimal environ_full = Ok c
    ∧ SMTP_PORT c = Some 587
    ∧ exists msg,
        main CET flaky stable_sort ["EURUSD=X"] c "2024-01-08 07:00:00 CET"
          "20240108_0700" id (fun r => pair r) (fun _ => "csv") accepting
          {| dry_run := false; pairs := None |}
        = ([Smtp "smtp.example.org" 587 "desk" "secret" msg], Ok 0)
        ∧ From msg = "desk"
        ∧ To msg = "a@example.org, b@example.org".
Proof.
  eexists. split; [by vm_compute|]. split; [done|].
  eexists. split; [by vm_compute|]. done.
Qed.

Example run_without_any_gap :
  main CET flaky stable_sort ["BADTICKER"]
    {| SMTP_HOST := None; SMTP_PORT := None; SMTP_USER := None;
       SMTP_PASS := None; EMAIL_FROM := None; EMAIL_TO := None |}
    "2024-01-08 07:00:00 CET" "20240108_0700" id (fun r => pair r)
    (fun _ => "csv") accepting {| dry_run := true; pairs := None |}
  = ([], Raise "bad operand type for abs(): 'NoneType'").
Proof. reflexivity. Qed.

(** C9, as the code has it. Without [SMTP_PORT] in the environment the
    port setting is [None], whether or not the host is set: 587 is not used.
    A live run with these settings therefore opens no mail session; once its
    report is built it prints the body and returns 2, as the delivery step
    does on every report. The sender of any settings loaded is [EMAIL_FROM],
    or [SMTP_USER] when [EMAIL_FROM] is not set, whatever the port. *)
Theorem port_has_no_default (int : string -> result Z)
    (environ : gmap string string) :
  (environ !! "SMTP_PORT" = None ->
   exists c,
     load_settings int environ = Ok c
     ∧ SMTP_HOST c = environ !! "SMTP_HOST"
     ∧ SMTP_PORT c = None
     ∧ forall TZ download sort_values PAIRS executed_at stamp here format_row
              to_csv transport args,
         dry_run args = false ->
         let run := main TZ download sort_values PAIRS c executed_at stamp
                      here format_row to_csv transport args in
         Forall (fun e => is_Smtp e = false) (run.1)
         ∧ forall report,
             deliver c executed_at stamp here format_row to_csv transport
               args report
             = ([Print (body_of executed_at format_row report)], Ok 2)
             ∧ (build_report sort_values
                  (screen_all TZ download (requested PAIRS args)) = Ok report ->
                run = ([Print (body_of executed_at format_row report)], Ok 2)))
  ∧ (forall c,
       load_settings int environ = Ok c ->
       EMAIL_FROM c = py_or (environ !! "EMAIL_FROM") (environ !! "SMTP_USER")
       ∧ (environ !! "EMAIL_FROM" = None ->
          EMAIL_FROM c = environ !! "SMTP_USER")).
Proof.
  split.
  - intros Hport.
    assert (Hdel : forall c executed_at stamp here format_row to_csv transport
                     args report,
      SMTP_PORT c = None -> dry_run args = false ->
      deliver c executed_at stamp here format_row to_csv transport args report
      = ([Print (body_of executed_at format_row report)], Ok 2)).
    { intros c ? ? ? ? ? ? args report Hc Hlive. unfold deliver. rewrite Hlive.
      rewrite all_set_false; [done | by right; left]. }
    unfold load_settings. rewrite Hport.
    eexists. split; [reflexivity|].
    split; [reflexivity|]. split; [reflexivity|].
    intros TZ download sort_values PAIRS executed_at stamp here format_row
      to_csv transport args Hlive. cbv zeta. split.
    + unfold main. destruct (build_report _ _) as [report|msg].
      * rewrite Hdel by done. by repeat constructor.
      * by constructor.
    + intros report. split; [by apply Hdel|].
      intros E. unfold main. rewrite E. by apply Hdel.
  - intros c. unfold load_settings.
    destruct (if truthy (environ !! "SMTP_PORT") then _ else _) as [port|e];
      unfold_result; [|done].
    intros [= <-]. cbn. split; [done | by intros ->].
Qed.

Lemma port_has_no_default_witness :
  (exists c,
     load_settings int_decimal environ_no_port = Ok c
     ∧ SMTP_HOST c = Some "smtp.example.org"
     ∧ SMTP_PORT c = None
     ∧ main CET flaky stable_sort ["EURUSD=X"] c "2024-01-08 07:00:00 CET"
         "20240108_0700" id (fun r => pair r) (fun _ => "csv") accepting
         {| dry_run := false; pairs := None |}
       = ([Print (body_of "2024-01-08 07:00:00 CET" (fun r => pair r)
                    [screen CET flaky "EURUSD=X"])], Ok 2))
  ∧ (exists c,
       load_settings int_decimal environ_full = Ok c
       ∧ SMTP_PORT c = Some 587
       ∧ environ_full !! "EMAIL_FROM" = None
       ∧ EMAIL_FROM c = Some "desk").
Proof.
  split.
  - destruct (proj1 (port_has_no_default int_decimal environ_no_port) eq_refl)
      as (c & Hc & Hhost & Hport & Hrun).
    exists c. split_and!; [exact Hc | exact Hhost | exact Hport |].
    destruct (Hrun CET flaky stable_sort ["EURUSD=X"] "2024-01-08 07:00:00 CET"
                "20240108_0700" id (fun r => pair r) (fun _ => "csv") accepting
                {| dry_run := false; pairs := None |} eq_refl) as [_ Hrep].
    apply Hrep. reflexivity.
  - eexists. split; [reflexivity|]. split; [reflexivity|].
    split; [reflexivity|].
    apply (proj2 (proj2 (port_has_no_default int_decimal environ_full) _ eq_refl)).
    reflexivity.
Defined.

(** C9, as the specification states it, fails: with the host, the user, the
    password and the recipients set and no port, the port is not 587 and
    the live run returns 2 without a mail session. *)
Lemma unset_port_is_not_587 :
  exists c,
    load_settings int_decimal environ_no_port = Ok c
    ∧ SMTP_HOST c = Some "smtp.example.org"
    ∧ SMTP_PORT c ≠ Some 587
    ∧ (main CET flaky stable_sort ["EURUSD=X"] c "2024-01-08 07:00:00 CET"
         "20240108_0700" id (fun r => pair r) (fun _ => "csv") accepting
         {| dry_run := false; pairs := None |}).2 = Ok 2
    ∧ Forall (fun e => is_Smtp e = false)
        (main CET flaky stable_sort ["EURUSD=X"] c "2024-01-08 07:00:00 CET"
           "20240108_0700" id (fun r => pair r) (fun _ => "csv") accepting
           {| dry_run := false; pairs := None |}).1.
Proof.
  eexists. split; [by vm_compute|].
  split_and!; [done | done | by vm_compute |].
  vm_compute. by repeat constructor.
Qed.

(** * Further properties of the code *)

(** ** The locator, case by case *)

Lemma at_time_cases (l : list Bar) (b : Bar) :
  b ∈ l -> at_time (time b) l = [b] ∨ shared (time b) l.
Proof.
  intros Hb.
  assert (Hin : b ∈ at_time (time b) l) by (apply list_elem_of_filter; done).
  unfold shared. destruct (at_time (time b) l) as [|a [|a' l']] eqn:E.
  - by apply elem_of_nil in Hin.
  - left. apply list_elem_of_singleton in Hin. by subst.
  - right. cbn. lia.
Qed.

Lemma not_Exists_forall (P : Bar -> Prop) (l : list Bar) :
  ¬ Exists P l -> forall b, b ∈ l -> ¬ P b.
Proof. intros Hno b Hb HP. apply Hno, Exists_exists. eauto. Qed.

Lemma located_sunday (TZ : tzinfo) (df : DataFrame) (bf bs : Bar) :
  latest (on_friday TZ) (bars df) bf ->
  at_time (time bf) (bars df) = [bf] ->
  sunday_choice TZ df bs ->
  sunday_step TZ df (time bf) (Close bf) =
    (sunday_open ← loc (normalized TZ df) (time bs) (open_or_close df) ≫= float_of;
     Ok {| f_time := Some (time bf); f_close := Some (Close bf);
           s_time := Some (time bs); s_open := Some sunday_open |}) ->
  located TZ df (sunday_step TZ df (time bf) (Close bf)).
Proof.
  intros Hbf Hone Hbs ->.
  assert (Hin : bs ∈ bars df) by (destruct Hbs as [H | [_ H]]; apply H).
  destruct (at_time_cases _ _ Hin) as [Hs | Hs].
  - rewrite (loc_normalized_once TZ df (time bs) _ bs Hs).
    by apply (located_both TZ df bf bs).
  - rewrite (loc_normalized_shared TZ df (time bs) _ Hs).
    by apply (located_sunday_shared TZ df bf bs).
Qed.

Lemma locate_located (TZ : tzinfo) (df : DataFrame) :
  located TZ df (locate TZ df).
Proof.
  destruct (decide (Exists (on_friday TZ) (bars df))) as [Hfri | Hno].
  2:{ pose proof (not_Exists_forall _ _ Hno) as Hall.
      rewrite (locate_no_friday_rows TZ df Hall). by constructor. }
  apply Exists_exists in Hfri.
  destruct (latest_exists (on_friday TZ) (bars df) Hfri) as [bf Hbf].
  rewrite (locate_friday_step TZ df bf Hbf).
  destruct (at_time_cases (bars df) bf (proj1 Hbf)) as [Hone | Hsh].
  2:{ rewrite (loc_normalized_shared TZ df (time bf) Close Hsh).
      by apply (located_friday_shared TZ df bf). }
  rewrite (loc_normalized_once TZ df (time bf) Close bf Hone). unfold_result.
  destruct (decide (Exists (at_reopen TZ) (bars df))) as [Hre | Hnore].
  { apply Exists_exists in Hre.
    destruct (earliest_exists (at_reopen TZ) (bars df) Hre) as [bs Hbs].
    apply (located_sunday TZ df bf bs); [done | done | by left |].
    by apply sunday_step_reopen. }
  pose proof (not_Exists_forall _ _ Hnore) as Hnore'.
  destruct (decide (Exists (on_sunday TZ) (bars df))) as [Hsun | Hnosun].
  { apply Exists_exists in Hsun.
    destruct (earliest_exists (on_sunday TZ) (bars df) Hsun) as [bs Hbs].
    apply (located_sunday TZ df bf bs); [done | done | by right |].
    by apply sunday_step_fallback. }
  pose proof (not_Exists_forall _ _ Hnosun) as Hnosun'.
  rewrite (sunday_step_no_sunday TZ df _ _ Hnosun').
  by apply (located_friday_only TZ df bf).
Qed.

Lemma locate_Ok_shape (TZ : tzinfo) (df : DataFrame) (sp : SessionPair) :
  locate TZ df = Ok sp ->
  (f_time sp = None <-> f_close sp = None)
  ∧ (s_time sp = None <-> s_open sp = None)
  ∧ (f_close sp = None -> s_open sp = None).
Proof.
  intros E. pose proof (locate_located TZ df) as H. rewrite E in H.
  by inversion H; subst; cbn.
Qed.

(** X1. Whatever the locator returns comes from the frame. A returned
    Friday time is the timestamp of the latest Friday bar, carried by that
    bar alone, and the Friday close is its close; a returned Sunday time is
    the timestamp of a Sunday bar, carried by that bar alone, and the Sunday
    open is read on it; times and prices are present or absent together,
    and nothing is returned on the Sunday side without a Friday close. *)
Theorem locate_sound (TZ : tzinfo) (df : DataFrame) (sp : SessionPair) :
  locate TZ df = Ok sp ->
  (forall t, f_time sp = Some t ->
     exists b, latest (on_friday TZ) (bars df) b ∧ time b = t
               ∧ at_time t (bars df) = [b] ∧ f_close sp = Some (Close b))
  ∧ (forall t, s_time sp = Some t ->
       exists b, sunday_choice TZ df b ∧ time b = t
                 ∧ at_time t (bars df) = [b]
                 ∧ s_open sp = Some (open_or_close df b))
  ∧ (f_time sp = None <-> f_close sp = None)
  ∧ (s_time sp = None <-> s_open sp = None)
  ∧ (f_close sp = None -> s_open sp = None)
  ∧ (f_time sp = None -> forall b, b ∈ bars df -> ¬ on_friday TZ b).
Proof.
  intros E. pose proof (locate_located TZ df) as H. rewrite E in H.
  inversion H as [Hno | | | bf bs Hbf Hone Hbs Hone' | bf Hbf Hone Hno]; subst; cbn.
  - split_and!; try done.
  - split_and!; try done.
    + intros t [= <-]. by exists bf.
    + intros t [= <-]. by exists bs.
  - split_and!; try done.
    intros t [= <-]. by exists bf.
Qed.

Lemma locate_sound_witness :
  exists b, latest (on_friday CET) (bars sample) b ∧ time b = at_ 1 20
            ∧ at_time (at_ 1 20) (bars sample) = [b]
            ∧ Some 1.375%float = Some (Close b).
Proof.
  exact (proj1 (locate_sound CET sample
                  {| f_time := Some (at_ 1 20); f_close := Some 1.375%float;
                     s_time := Some (at_ 3 21); s_open := Some 1.75%float |}
                  eq_refl) (at_ 1 20) eq_refl).
Defined.

Lemma locate_Raise_shared (TZ : tzinfo) (df : DataFrame) (msg : string) :
  locate TZ df = Raise msg -> exists b, b ∈ bars df ∧ shared (time b) (bars df).
Proof.
  intros E. pose proof (locate_located TZ df) as H. rewrite E in H.
  inversion H as [ | bf Hbf Hsh | bf bs Hbf Hone Hbs Hsh | | ]; subst.
  - exists bf. split; [apply Hbf | done].
  - exists bs. split; [|done]. destruct Hbs as [Hbs | [_ Hbs]]; apply Hbs.
Qed.

(** X2. The only exception the locator raises is the [TypeError] of
    [float] on a Series, and it raises it exactly through a selected
    timestamp that two bars or more carry: the latest Friday timestamp, or
    the timestamp of the Sunday bar it would take. *)
Theorem locate_raises_on_shared_only (TZ : tzinfo) (df : DataFrame) (msg : string) :
  locate TZ df = Raise msg ->
  msg = TypeError_series
  ∧ exists b, b ∈ bars df ∧ shared (time b) (bars df)
              ∧ (latest (on_friday TZ) (bars df) b ∨ sunday_choice TZ df b).
Proof.
  intros E. pose proof (locate_located TZ df) as H. rewrite E in H.
  inversion H as [ | bf Hbf Hsh | bf bs Hbf Hone Hbs Hsh | | ]; subst.
  - split; [done|]. exists bf. split_and!; [apply Hbf | done | by left].
  - split; [done|]. exists bs. split_and!; [|done | by right].
    destruct Hbs as [Hbs | [_ Hbs]]; apply Hbs.
Qed.

Lemma locate_raises_on_shared_only_witness :
  TypeError_series = TypeError_series
  ∧ exists b, b ∈ bars reopen_twice ∧ shared (time b) (bars reopen_twice)
              ∧ (latest (on_friday CET) (bars reopen_twice) b
                 ∨ sunday_choice CET reopen_twice b).
Proof.
  exact (locate_raises_on_shared_only CET reopen_twice TypeError_series eq_refl).
Defined.

(** X3. On a frame whose timestamps are all different the locator always
    returns a session pair: it never raises. *)
Theorem locate_total_on_distinct (TZ : tzinfo) (df : DataFrame) :
  NoDup (time <$> bars df) -> exists sp, locate TZ df = Ok sp.
Proof.
  intros Hnd. destruct (locate TZ df) as [sp|msg] eqn:E; [by exists sp|].
  apply locate_Raise_shared in E as (b & Hb & Hsh).
  unfold shared in Hsh. rewrite (at_time_unique _ _ Hnd Hb) in Hsh.
  cbn in Hsh. lia.
Qed.

Lemma locate_total_on_distinct_witness :
  exists sp, locate CET two_weekends = Ok sp.
Proof.
  apply (locate_total_on_distinct CET two_weekends).
  apply (bool_decide_unpack _). by vm_compute.
Defined.

(** X4. The Sunday bar is looked for in the whole window, not after the
    Friday bar: when the earliest reopening bar is older than the latest
    Friday bar, the Sunday time the locator returns precedes the Friday
    time it returns. *)
Theorem sunday_may_precede_friday (TZ : tzinfo) (df : DataFrame)
    (bf bs : Bar) (sp : SessionPair) :
  latest (on_friday TZ) (bars df) bf ->
  earliest (at_reopen TZ) (bars df) bs ->
  time bs < time bf ->
  locate TZ df = Ok sp ->
  f_time sp = Some (time bf) ∧ s_time sp = Some (time bs)
  ∧ f_close sp = Some (Close bf) ∧ s_open sp = Some (open_or_close df bs).
Proof.
  intros Hbf Hbs _. rewrite (locate_friday_step TZ df bf Hbf).
  destruct (at_time_cases (bars df) bf (proj1 Hbf)) as [Hone | Hsh].
  2:{ by rewrite (loc_normalized_shared TZ df (time bf) Close Hsh). }
  rewrite (loc_normalized_once TZ df (time bf) Close bf Hone). unfold_result.
  rewrite (sunday_step_reopen TZ df _ _ bs Hbs).
  destruct (at_time_cases (bars df) bs (proj1 Hbs)) as [Hone' | Hsh'].
  2:{ by rewrite (loc_normalized_shared TZ df (time bs) _ Hsh'). }
  rewrite (loc_normalized_once TZ df (time bs) _ bs Hone'). unfold_result.
  by intros [= <-].
Qed.

Lemma sunday_may_precede_friday_witness :
  exists sp,
    locate CET two_weekends = Ok sp
    ∧ at_ 3 21 < at_ 8 20
    ∧ f_time sp = Some (at_ 8 20) ∧ s_time sp = Some (at_ 3 21)
    ∧ f_close sp = Some 2.125%float ∧ s_open sp = Some 1.75%float.
Proof.
  eexists. split; [reflexivity|]. split; [by vm_compute|].
  apply (sunday_may_precede_friday CET two_weekends
           (mkBar (at_ 8 20) 2.0 2.125) (mkBar (at_ 3 21) 1.75 1.8125)).
  - unfold latest. split_and!; [do 2 right; left | by vm_compute |].
    apply (Forall_forall (fun b' => on_friday CET b' -> time b' <= at_ 8 20)).
    repeat constructor; by vm_compute.
  - unfold earliest. split_and!; [right; left | by vm_compute |].
    apply (Forall_forall (fun b' => at_reopen CET b' -> at_ 3 21 <= time b')).
    repeat constructor; vm_compute; intuition discriminate.
  - by vm_compute.
  - reflexivity.
Defined.

(** ** The locator does not depend on the order of the rows *)

Lemma same_bars_elem (df df' : DataFrame) (b : Bar) :
  same_bars df df' -> b ∈ bars df -> b ∈ bars df'.
Proof. intros [_ Hp] Hb. by rewrite <- Hp. Qed.

Lemma same_bars_sym (df df' : DataFrame) : same_bars df df' -> same_bars df' df.
Proof. intros [H1 H2]. split; [done | by symmetry]. Qed.

Lemma same_bars_at_time (df df' : DataFrame) (b : Bar) :
  same_bars df df' -> at_time (time b) (bars df) = [b] ->
  at_time (time b) (bars df') = [b].
Proof.
  intros [_ Hp] E. apply Permutation_singleton_r.
  unfold at_time in *. by rewrite <- Hp, E.
Qed.

Lemma same_bars_shared (df df' : DataFrame) (t : Timestamp) :
  same_bars df df' -> shared t (bars df) -> shared t (bars df').
Proof. intros [_ Hp]. unfold shared, at_time. by rewrite Hp. Qed.

Lemma same_bars_latest (P : Bar -> Prop) (df df' : DataFrame) (b : Bar) :
  same_bars df df' -> latest P (bars df) b -> latest P (bars df') b.
Proof.
  intros Hs (Hb & HP & Hmax). split_and!; [by apply (same_bars_elem df) | done |].
  intros b' Hb'. apply Hmax. by apply (same_bars_elem df'), Hb'; apply same_bars_sym.
Qed.

Lemma same_bars_earliest (P : Bar -> Prop) (df df' : DataFrame) (b : Bar) :
  same_bars df df' -> earliest P (bars df) b -> earliest P (bars df') b.
Proof.
  intros Hs (Hb & HP & Hmin). split_and!; [by apply (same_bars_elem df) | done |].
  intros b' Hb'. apply Hmin. by apply (same_bars_elem df'), Hb'; apply same_bars_sym.
Qed.

Lemma same_bars_sunday_choice (TZ : tzinfo) (df df' : DataFrame) (b : Bar) :
  same_bars df df' -> sunday_choice TZ df b -> sunday_choice TZ df' b.
Proof.
  intros Hs [H | [Hno H]].
  - left. by apply (same_bars_earliest _ df).
  - right. split; [|by apply (same_bars_earliest _ df)].
    intros b' Hb'. apply Hno. by apply (same_bars_elem df'), Hb'; apply same_bars_sym.
Qed.

Lemma located_locate (TZ : tzinfo) (df : DataFrame) (o : result SessionPair) :
  located TZ df o -> locate TZ df = o.
Proof.
  intros H. destruct H as [Hno | bf Hbf Hsh | bf bs Hbf Hone Hbs Hsh
                           | bf bs Hbf Hone Hbs Hone' | bf Hbf Hone Hno].
  - by apply locate_no_friday_rows.
  - rewrite (locate_friday_step TZ df bf Hbf).
    by rewrite (loc_normalized_shared TZ df (time bf) Close Hsh).
  - rewrite (locate_friday_step TZ df bf Hbf).
    rewrite (loc_normalized_once TZ df (time bf) Close bf Hone). unfold_result.
    destruct Hbs as [Hbs | [Hnore Hbs]].
    + rewrite (sunday_step_reopen TZ df _ _ bs Hbs).
      by rewrite (loc_normalized_shared TZ df (time bs) _ Hsh).
    + rewrite (sunday_step_fallback TZ df _ _ bs Hnore Hbs).
      by rewrite (loc_normalized_shared TZ df (time bs) _ Hsh).
  - rewrite (locate_friday_step TZ df bf Hbf).
    rewrite (loc_normalized_once TZ df (time bf) Close bf Hone). unfold_result.
    destruct Hbs as [Hbs | [Hnore Hbs]].
    + rewrite (sunday_step_reopen TZ df _ _ bs Hbs).
      by rewrite (loc_normalized_once TZ df (time bs) _ bs Hone').
    + rewrite (sunday_step_fallback TZ df _ _ bs Hnore Hbs).
      by rewrite (loc_normalized_once TZ df (time bs) _ bs Hone').
  - rewrite (locate_friday_step TZ df bf Hbf).
    rewrite (loc_normalized_once TZ df (time bf) Close bf Hone). unfold_result.
    by rewrite (sunday_step_no_sunday TZ df _ _ Hno).
Qed.

Lemma located_same_bars (TZ : tzinfo) (df df' : DataFrame) (o : result SessionPair) :
  same_bars df df' -> located TZ df o -> located TZ df' o.
Proof.
  intros Hs H.
  destruct H as [Hno | bf Hbf Hsh | bf bs Hbf Hone Hbs Hsh
                 | bf bs Hbf Hone Hbs Hone' | bf Hbf Hone Hno].
  - apply located_no_friday. intros b Hb. apply Hno.
    by apply (same_bars_elem df'), Hb; apply same_bars_sym.
  - apply (located_friday_shared TZ df' bf).
    + by apply (same_bars_latest _ df).
    + by apply (same_bars_shared df).
  - apply (located_sunday_shared TZ df' bf bs).
    + by apply (same_bars_latest _ df).
    + by apply (same_bars_at_time df).
    + by apply (same_bars_sunday_choice TZ df).
    + by apply (same_bars_shared df).
  - assert (open_or_close df bs = open_or_close df' bs) as ->.
    { unfold open_or_close. by rewrite (proj1 Hs). }
    apply (located_both TZ df' bf bs).
    + by apply (same_bars_latest _ df).
    + by apply (same_bars_at_time df).
    + by apply (same_bars_sunday_choice TZ df).
    + by apply (same_bars_at_time df).
  - apply (located_friday_only TZ df' bf).
    + by apply (same_bars_latest _ df).
    + by apply (same_bars_at_time df).
    + intros b Hb. apply Hno.
      by apply (same_bars_elem df'), Hb; apply same_bars_sym.
Qed.

(** X5. The locator's answer depends on the bars of the frame and on
    whether it has an open column, and on nothing else: two frames with the
    same bars give the same session pair, or raise alike, whatever the order
    of their rows and whether their index is naive or already in a zone. *)
Theorem locate_same_bars (TZ : tzinfo) (df df' : DataFrame) :
  same_bars df df' -> locate TZ df = locate TZ df'.
Proof.
  intros Hs. symmetry. apply located_locate.
  apply (located_same_bars TZ df df' _ Hs), locate_located.
Qed.

Lemma locate_same_bars_witness :
  locate CET sample
  = locate CET {| tz := Some UTC; has_Open := true; bars := reverse (bars sample) |}.
Proof.
  apply (locate_same_bars CET sample).
  split; [reflexivity|]. cbn [bars]. by rewrite reverse_Permutation.
Defined.

(** ** Rows and report *)

(** X6. A row of the loop has one of three shapes. It is the error row,
    when the locator raised. It has the note ["no sunday open"], no Sunday
    field and no gap, and the Friday fields as located, when no Sunday open
    was found. Or it has no note and the four fields present, with the gap
    computed from the two prices. *)
Theorem screen_row_shapes (TZ : tzinfo) (download : Provider) (ticker : string) :
  let row := screen TZ download ticker in
  pair row = ticker
  ∧ ((exists msg,
        get_friday_close_and_sunday_open TZ download ticker = Raise msg
        ∧ row = error_row ticker msg)
     ∨ (exists sp,
          get_friday_close_and_sunday_open TZ download ticker = Ok sp
          ∧ s_open sp = None
          ∧ row = {| pair := ticker;
                     friday_time := f_time sp; friday_close := f_close sp;
                     sunday_time := None; sunday_open := None;
                     gap_pct := None; note := Some "no sunday open" |})
     ∨ (exists tf f ts s,
          row = {| pair := ticker;
                   friday_time := Some tf; friday_close := Some f;
                   sunday_time := Some ts; sunday_open := Some s;
                   gap_pct := spec_gap_pct (Some f) (Some s);
                   note := None |})).
Proof.
  intros row. split; [apply screen_pair|].
  unfold row. rewrite screen_eq. unfold get_friday_close_and_sunday_open.
  destruct (locate TZ (yf_download_safe download ticker)) as [sp|msg] eqn:E.
  2:{ left. by exists msg. }
  right. destruct (locate_Ok_shape TZ _ sp E) as (Hfn & Hsn & Hpre).
  destruct (s_open sp) as [s|] eqn:Es.
  - right.
    destruct (s_time sp) as [ts|] eqn:Ets;
      [|by destruct Hsn as [H _]; specialize (H eq_refl)].
    destruct (f_close sp) as [f|] eqn:Ef; [|by specialize (Hpre eq_refl)].
    destruct (f_time sp) as [tf|] eqn:Etf;
      [|by destruct Hfn as [H _]; specialize (H eq_refl)].
    by exists tf, f, ts, s.
  - left. exists sp. split_and!; [done | done |].
    destruct Hsn as [_ Hsn]. rewrite (Hsn eq_refl).
    by destruct (f_close sp).
Qed.

Lemma screen_all_pairs (TZ : tzinfo) (download : Provider) (pairs : list string) :
  pair <$> screen_all TZ download pairs = pairs.
Proof.
  rewrite screen_all_fmap, <- list_fmap_compose.
  induction pairs as [|t l IH]; [done|]. cbn. by rewrite screen_pair, IH.
Qed.

(** X7. The report has one row per requested ticker: when it is built, it
    has as many rows as tickers were requested and carries the requested
    tickers, each as many times as it was requested. *)
Theorem report_row_per_ticker (TZ : tzinfo) (download : Provider)
    (sort_values : Keyed -> Keyed) (pairs : list string) (report : list Row) :
  sort_values_spec sort_values ->
  build_report sort_values (screen_all TZ download pairs) = Ok report ->
  length report = length pairs ∧ pair <$> report ≡ₚ pairs.
Proof.
  intros Hsort Hrep.
  pose proof (build_report_rows _ _ _ Hsort Hrep) as Hp.
  split.
  - by rewrite Hp, screen_all_fmap, length_fmap.
  - by rewrite Hp, screen_all_pairs.
Qed.

Lemma report_row_per_ticker_witness :
  length [screen CET flaky "EURUSD=X"; screen CET flaky "BADTICKER";
          screen CET flaky "BADTICKER"] = 3%nat
  ∧ pair <$> [screen CET flaky "EURUSD=X"; screen CET flaky "BADTICKER";
              screen CET flaky "BADTICKER"]
    ≡ₚ ["BADTICKER"; "EURUSD=X"; "BADTICKER"].
Proof.
  exact (report_row_per_ticker CET flaky stable_sort
           ["BADTICKER"; "EURUSD=X"; "BADTICKER"] _ stable_sort_spec eq_refl).
Defined.

(** X8. When tickers were requested and the provider returns nothing for
    any of them (an empty frame, or an exception that the download wrapper
    absorbs), no row has a gap, [build_report] raises on the column of
    [None] and the run ends on that exception without printing, writing or
    sending anything. *)
Theorem main_raises_without_data (TZ : tzinfo) (download : Provider)
    (sort_values : Keyed -> Keyed) (PAIRS : list string) (settings : Settings)
    (executed_at stamp : string) (here : string -> string)
    (format_row : Row -> string) (to_csv : list Row -> string)
    (transport : string -> Z -> string -> string -> Message -> result unit)
    (args : Args) :
  requested PAIRS args ≠ [] ->
  (forall t, t ∈ requested PAIRS args -> bars (yf_download_safe download t) = []) ->
  main TZ download sort_values PAIRS settings executed_at stamp here format_row
    to_csv transport args
  = ([], Raise "bad operand type for abs(): 'NoneType'").
Proof.
  intros Hne Hempty. unfold main, build_report.
  destruct (numeric_gaps _) eqn:Hnum; [|done]. exfalso.
  apply numeric_gaps_spec in Hnum as [Hnil | (r & Hr & Hgap)].
  - rewrite screen_all_fmap in Hnil. by apply fmap_nil_inv in Hnil.
  - rewrite screen_all_fmap in Hr.
    apply list_elem_of_fmap in Hr as (t & -> & Ht).
    apply Hgap. rewrite screen_eq.
    rewrite (locate_no_friday_rows TZ (yf_download_safe download t)); [done|].
    intros b Hb. rewrite (Hempty t Ht) in Hb. by apply elem_of_nil in Hb.
Qed.

Lemma main_raises_without_data_witness :
  main CET flaky stable_sort ["EURUSD=X"]
    {| SMTP_HOST := None; SMTP_PORT := None; SMTP_USER := None;
       SMTP_PASS := None; EMAIL_FROM := None; EMAIL_TO := None |}
    "2024-01-08 07:00:00 CET" "20240108_0700" id (fun r => pair r)
    (fun _ => "csv") accepting
    {| dry_run := true; pairs := Some "BADTICKER, BADTICKER" |}
  = ([], Raise "bad operand type for abs(): 'NoneType'").
Proof.
  apply main_raises_without_data.
  - by vm_compute.
  - apply Forall_forall. repeat constructor.
Defined.

(** ** The ticker list of the command line *)

Lemma strip_front_suffix (forward : bool) (n : nat) (l : list ascii) :
  strip_front forward n l `suffix_of` l.
Proof.
  revert l. induction n as [|n IH]; intros l; cbn; [done|].
  destruct (space_len forward l) as [|k]; [done|].
  etrans; [apply IH | apply suffix_drop].
Qed.

Lemma space_len_nil (forward : bool) (l : list ascii) :
  length l = 0%nat -> space_len forward l = 0%nat.
Proof. by destruct l. Qed.

Lemma strip_front_done (forward : bool) (n : nat) (l : list ascii) :
  (length l <= n)%nat -> space_len forward (strip_front forward n l) = 0%nat.
Proof.
  revert l. induction n as [|n IH]; intros l Hn; cbn.
  - apply space_len_nil. lia.
  - destruct (space_len forward l) as [|k] eqn:E; [done|].
    apply IH. rewrite length_drop.
    destruct l; [done|]. cbn [length] in *. lia.
Qed.

Lemma strip_front_fix (forward : bool) (n : nat) (l : list ascii) :
  space_len forward l = 0%nat -> strip_front forward n l = l.
Proof. intros E. destruct n; cbn; [done|]. by rewrite E. Qed.

(** A text that starts with a white space character still does so when
    more is appended. *)
Lemma space_len_prefix (l m : list ascii) :
  l `prefix_of` m -> space_len true l ≠ 0%nat ->
  space_len true m ≠ 0%nat.
Proof.
  intros [q ->].
  destruct l as [|c1 [|c2 [|c3 l]]]; cbn; try done;
    destruct (py_isspace c1); try done;
    destruct (py_isspace2 c1 c2); done.
Qed.

Lemma rstrip_bytes_prefix (l : list ascii) : rstrip_bytes l `prefix_of` l.
Proof.
  unfold rstrip_bytes.
  rewrite <- (reverse_involutive l) at 3.
  apply suffix_prefix_reverse, strip_front_suffix.
Qed.

Lemma lstrip_bytes_done (l : list ascii) :
  space_len true (lstrip_bytes l) = 0%nat.
Proof. by apply strip_front_done. Qed.

Lemma rstrip_bytes_done (l : list ascii) :
  space_len false (reverse (rstrip_bytes l)) = 0%nat.
Proof.
  unfold rstrip_bytes. rewrite reverse_involutive.
  apply strip_front_done. by rewrite length_reverse.
Qed.

Lemma strip_bytes (s : string) :
  list_ascii_of_string (strip s)
  = rstrip_bytes (lstrip_bytes (list_ascii_of_string s)).
Proof.
  unfold strip, rstrip, lstrip.
  by rewrite !list_ascii_of_string_of_list_ascii.
Qed.

(** A stripped text has no white space character at either end. *)
Lemma strip_ends (s : string) :
  space_len true (list_ascii_of_string (strip s)) = 0%nat
  ∧ space_len false (reverse (list_ascii_of_string (strip s))) = 0%nat.
Proof.
  rewrite strip_bytes. split; [|apply rstrip_bytes_done].
  destruct (space_len true (rstrip_bytes _)) eqn:E; [done|].
  destruct (space_len_prefix _ _ (rstrip_bytes_prefix _)
              ltac:(by rewrite E) (lstrip_bytes_done _)).
Qed.

Lemma strip_idem (s : string) : strip (strip s) = strip s.
Proof.
  destruct (strip_ends s) as [Hl Hr].
  assert (list_ascii_of_string (strip (strip s))
          = list_ascii_of_string (strip s)) as E.
  { rewrite (strip_bytes (strip s)).
    unfold lstrip_bytes. rewrite (strip_front_fix _ _ _ Hl).
    unfold rstrip_bytes. rewrite (strip_front_fix _ _ _ Hr).
    apply reverse_involutive. }
  apply (f_equal string_of_list_ascii) in E.
  by rewrite !string_of_list_ascii_of_string in E.
Qed.

Lemma strip_chars (s : string) (c : ascii) :
  In c (list_ascii_of_string (strip s)) -> In c (list_ascii_of_string s).
Proof.
  rewrite strip_bytes, <- !list_elem_of_In. intros H.
  pose proof (elem_of_prefix _ _ _ H (rstrip_bytes_prefix _)) as H'.
  exact (elem_of_suffix _ _ _ H' (strip_front_suffix _ _ _)).
Qed.

Lemma split_comma_chars (s w : string) :
  In w (split_comma s) -> ¬ In ","%char (list_ascii_of_string w).
Proof.
  revert w. induction s as [|a s IH]; intros w; cbn.
  - intros [<- | []]. cbn. tauto.
  - destruct (Ascii.eqb a ",") eqn:Ea.
    + intros [<- | H]; [cbn; tauto | by apply IH].
    + destruct (split_comma s) as [|v vs] eqn:E.
      * intros [<- | []]. cbn. intros [-> | []]. by rewrite Ascii.eqb_refl in Ea.
      * intros [<- | H].
        -- cbn. intros [-> | Hin]; [by rewrite Ascii.eqb_refl in Ea|].
           apply (IH v); [by left | done].
        -- apply IH. by right.
Qed.

(** X9. The tickers taken from [--pairs] are clean: none is empty, none
    has a white space character, ASCII or not, at either end (stripping one
    again changes nothing), and none holds a comma. Without [--pairs], or
    with an empty one, the configured list is used as it is. *)
Theorem requested_tickers_clean (PAIRS : list string) (args : Args) :
  (truthy (pairs args) = true ->
   forall p, p ∈ requested PAIRS args ->
     p ≠ "" ∧ strip p = p
     ∧ space_len true (list_ascii_of_string p) = 0%nat
     ∧ space_len false (reverse (list_ascii_of_string p)) = 0%nat
     ∧ ¬ In ","%char (list_ascii_of_string p))
  ∧ (truthy (pairs args) = false -> requested PAIRS args = PAIRS).
Proof.
  unfold requested. split; intros Ht; rewrite Ht; [|done].
  intros p [Hne (w & -> & Hw)%list_elem_of_fmap]%list_elem_of_filter.
  destruct (strip_ends w) as [Hl Hr].
  split_and!; [done | apply strip_idem | done | done |].
  intros Hc. apply list_elem_of_In in Hw.
  apply (split_comma_chars _ _ Hw).
  by apply strip_chars.
Qed.

Lemma requested_tickers_clean_witness :
  requested ["USDJPY=X"]
    {| dry_run := true;
       pairs := Some (" EURUSD=X" +:+ NBSP +:+ ", ,GBPUSD=X ," +:+ NBSP) |}
  = ["EURUSD=X"; "GBPUSD=X"]
  ∧ "EURUSD=X" ≠ "" ∧ strip "EURUSD=X" = "EURUSD=X"
  ∧ space_len true (list_ascii_of_string "EURUSD=X") = 0%nat
  ∧ space_len false (reverse (list_ascii_of_string "EURUSD=X")) = 0%nat
  ∧ ¬ In ","%char (list_ascii_of_string "EURUSD=X").
Proof.
  split; [reflexivity|].
  apply (proj1 (requested_tickers_clean ["USDJPY=X"]
                  {| dry_run := true;
                     pairs := Some (" EURUSD=X" +:+ NBSP +:+ ", ,GBPUSD=X ,"
                                    +:+ NBSP) |})
           eq_refl).
  left.
Defined.

(** ** Settings and delivery *)

Lemma all_set_true (c : Settings) :
  all_set c = true <->
  truthy (SMTP_HOST c) = true ∧ truthy_int (SMTP_PORT c) = true
  ∧ truthy (SMTP_USER c) = true ∧ truthy (SMTP_PASS c) = true
  ∧ truthy (EMAIL_FROM c) = true ∧ truthy (EMAIL_TO c) = true.
Proof. unfold all_set. rewrite !andb_true_iff. tauto. Qed.





(** X11. A run that returns, returns 0 or 2, and it returns 2 exactly when
    it is a live run whose settings are not all in place, in which case all
    it did was print the body. A run that returns 0 either is a dry run or
    has opened a mail session. *)
Theorem main_exit_code (TZ : tzinfo) (download : Provider)
    (sort_values : Keyed -> Keyed) (PAIRS : list string) (settings : Settings)
    (executed_at stamp : string) (here : string -> string)
    (format_row : Row -> string) (to_csv : list Row -> string)
    (transport : string -> Z -> string -> string -> Message -> result unit)
    (args : Args) (events : list Event) (code : Z) :
  main TZ download sort_values PAIRS settings executed_at stamp here format_row
    to_csv transport args = (events, Ok code) ->
  (code = 0 ∨ code = 2)
  ∧ (code = 2 <-> dry_run args = false ∧ all_set settings = false)
  ∧ (code = 2 -> exists body, events = [Print body])
  ∧ (code = 0 -> dry_run args = true ∨ Exists (fun e => is_Smtp e = true) events).
Proof.
  unfold main.
  destruct (build_report _ _) as [report|msg]; [|done].
  unfold deliver. destruct (dry_run args) eqn:Hd.
  { intros [= <- <-]. split_and!; [by left | | done | by left].
    split; [done | by intros [? _]]. }
  destruct (all_set settings) eqn:Hall; cbn [negb].
  - unfold send_email.
    destruct (transport _ _ _ _ _) as [[]|e]; unfold_result; [|done].
    intros [= <- <-]. split_and!; [by left | | done |].
    + split; [done | by intros [_ ?]].
    + intros _. right. by left.
  - intros [= <- <-]. split_and!; [by right | done | eauto | done].
Qed.

Lemma main_exit_code_witness :
  (0 = 0 ∨ 0 = 2)
  ∧ (0 = 2 <-> true = false ∧ all_set {| SMTP_HOST := None; SMTP_PORT := None;
                                         SMTP_USER := None; SMTP_PASS := None;
                                         EMAIL_FROM := None; EMAIL_TO := None |}
                              = false)
  ∧ (0 = 2 -> exists body,
       [WriteFile "forex_gaps_dryrun_20240108_0700.csv" "csv";
        Print (body_of "2024-01-08 07:00:00 CET" (fun r => pair r)
                 [screen CET flaky "EURUSD=X"])] = [Print body])
  ∧ (0 = 0 -> true = true
       ∨ Exists (fun e => is_Smtp e = true)
           [WriteFile "forex_gaps_dryrun_20240108_0700.csv" "csv";
            Print (body_of "2024-01-08 07:00:00 CET" (fun r => pair r)
                     [screen CET flaky "EURUSD=X"])]).
Proof.
  exact (main_exit_code CET flaky stable_sort ["EURUSD=X"]
           {| SMTP_HOST := None; SMTP_PORT := None; SMTP_USER := None;
              SMTP_PASS := None; EMAIL_FROM := None; EMAIL_TO := None |}
           "2024-01-08 07:00:00 CET" "20240108_0700" id (fun r => pair r)
           (fun _ => "csv") accepting {| dry_run := true; pairs := None |}
           _ 0 eq_refl).
Defined.

(** X12. The settings can be loaded in all cases but one: [SMTP_PORT] is
    set to a text that is not empty and that [int] refuses, and then the
    load ends on the exception of [int], before [main] is ever run. A port
    that was loaded is what [int] made of that text. *)
Theorem load_settings_failure (int : string -> result Z)
    (environ : gmap string string) :
  (forall msg,
     load_settings int environ = Raise msg <->
     exists s, environ !! "SMTP_PORT" = Some s ∧ s ≠ "" ∧ int s = Raise msg)
  ∧ (forall c n,
       load_settings int environ = Ok c -> SMTP_PORT c = Some n ->
       exists s, environ !! "SMTP_PORT" = Some s ∧ s ≠ "" ∧ int s = Ok n)
  ∧ (environ !! "SMTP_PORT" = Some "" ->
     exists c, load_settings int environ = Ok c ∧ SMTP_PORT c = None).
Proof.
  unfold load_settings. split_and!.
  - intros msg. destruct (environ !! "SMTP_PORT") as [s|] eqn:E; cbn.
    + destruct (String.eqb_spec s "") as [-> | Hne]; cbn.
      * split; [done|]. by intros (s & [= <-] & Hs & _).
      * destruct (int s) as [n|e] eqn:Ei; unfold_result.
        -- split; [done|]. intros (s' & [= <-] & _ & Hs). congruence.
        -- split.
           ++ intros [= <-]. by exists s.
           ++ intros (s' & [= <-] & _ & Hs). congruence.
    + split; [done|]. by intros (s & Hs & _).
  - intros c n. destruct (environ !! "SMTP_PORT") as [s|] eqn:E; cbn.
    + destruct (String.eqb_spec s "") as [-> | Hne]; cbn.
      * by intros [= <-].
      * destruct (int s) as [m|e] eqn:Ei; unfold_result; [|done].
        intros [= <-]; cbn. intros [= <-]. by exists s.
    + by intros [= <-].
  - intros ->. cbn. by eexists.
Qed.

(** X13. [EMAIL_FROM] is never needed for a live run to send: the settings
    loaded from an environment are all in place exactly when the host, the
    user, the password and the recipients are set to texts that are not
    empty and the port was loaded as a number other than 0, since the sender
    falls back to the user. *)
Theorem email_from_optional (int : string -> result Z)
    (environ : gmap string string) (c : Settings) :
  load_settings int environ = Ok c ->
  (all_set c = true <->
   truthy (environ !! "SMTP_HOST") = true
   ∧ truthy_int (SMTP_PORT c) = true
   ∧ truthy (environ !! "SMTP_USER") = true
   ∧ truthy (environ !! "SMTP_PASS") = true
   ∧ truthy (environ !! "EMAIL_TO") = true).
Proof.
  unfold load_settings.
  destruct (if truthy (environ !! "SMTP_PORT") then _ else _) as [port|e];
    unfold_result; [|done].
  intros [= <-]. rewrite all_set_true. cbn.
  unfold py_or. destruct (truthy (environ !! "EMAIL_FROM")) eqn:Ef.
  - rewrite Ef. tauto.
  - tauto.
Qed.

Lemma email_from_optional_witness :
  exists c,
    load_settings int_decimal environ_full = Ok c
    ∧ environ_full !! "EMAIL_FROM" = None
    ∧ all_set c = true.
Proof.
  eexists. split; [reflexivity|]. split; [reflexivity|].
  apply (email_from_optional int_decimal environ_full _ eq_refl).
  by vm_compute.
Defined.

(** X14. Once the report is built, a dry run writes the CSV, prints the body
    and returns 0, without a mail session; a live run in which one of the
    six mail settings is [None] prints the body and returns 2, without a
    mail session either, whichever of the six it is. [main] is that
    delivery step applied to the report, and its run has no mail session in
    these two cases even when the report could not be built. *)
Theorem main_without_mail (TZ : tzinfo) (download : Provider)
    (sort_values : Keyed -> Keyed) (PAIRS : list string) (settings : Settings)
    (executed_at stamp : string) (here : string -> string)
    (format_row : Row -> string) (to_csv : list Row -> string)
    (transport : string -> Z -> string -> string -> Message -> result unit)
    (args : Args) :
  let run := main TZ download sort_values PAIRS settings executed_at stamp
               here format_row to_csv transport args in
  let one_unset :=
    SMTP_HOST settings = None ∨ SMTP_PORT settings = None
    ∨ SMTP_USER settings = None ∨ SMTP_PASS settings = None
    ∨ EMAIL_FROM settings = None ∨ EMAIL_TO settings = None in
  (forall report : list Row,
     let out := deliver settings executed_at stamp here format_row to_csv
                  transport args report in
     let body := body_of executed_at format_row report in
     (dry_run args = true ->
        out = ([ WriteFile (here ("forex_gaps_dryrun_" +:+ stamp +:+ ".csv"))
                   (to_csv report);
                 Print body ], Ok 0))
     ∧ (dry_run args = false -> one_unset -> out = ([Print body], Ok 2))
     ∧ (build_report sort_values
          (screen_all TZ download (requested PAIRS args)) = Ok report ->
        run = out))
  ∧ (dry_run args = true ∨ one_unset ->
     Forall (fun e => is_Smtp e = false) (run.1)).
Proof.
  intros run one_unset.
  assert (Hdry : forall report, dry_run args = true ->
    deliver settings executed_at stamp here format_row to_csv transport args report
    = ([ WriteFile (here ("forex_gaps_dryrun_" +:+ stamp +:+ ".csv")) (to_csv report);
         Print (body_of executed_at format_row report) ], Ok 0)).
  { intros report Hd. unfold deliver. by rewrite Hd. }
  assert (Hlive : forall report, dry_run args = false -> one_unset ->
    deliver settings executed_at stamp here format_row to_csv transport args report
    = ([Print (body_of executed_at format_row report)], Ok 2)).
  { intros report Hd Hc. unfold deliver. by rewrite Hd, (all_set_false _ Hc). }
  split.
  - intros report out body. split_and!; [by apply Hdry | by apply Hlive |].
    intros E. unfold run, main. by rewrite E.
  - intros Hcase. unfold run, main.
    destruct (build_report _ _) as [report|msg]; [|by constructor].
    destruct (dry_run args) eqn:Hd.
    + rewrite (Hdry report eq_refl). by repeat constructor.
    + destruct Hcase as [? | Hc]; [done|].
      rewrite (Hlive report eq_refl Hc). by repeat constructor.
Qed.

Lemma main_without_mail_witness :
  exists report,
    build_report stable_sort (screen_all CET flaky ["EURUSD=X"]) = Ok report
    ∧ main CET flaky stable_sort ["EURUSD=X"]
        {| SMTP_HOST := Some "smtp.example.org"; SMTP_PORT := Some 587;
           SMTP_USER := Some "desk"; SMTP_PASS := None;
           EMAIL_FROM := Some "desk"; EMAIL_TO := Some "a@example.org" |}
        "2024-01-08 07:00:00 CET" "20240108_0700" id (fun r => pair r)
        (fun _ => "csv") accepting {| dry_run := false; pairs := None |}
      = ([Print (body_of "2024-01-08 07:00:00 CET" (fun r => pair r) report)],
         Ok 2).
Proof.
  eexists. split; [reflexivity|].
  destruct (main_without_mail CET flaky stable_sort ["EURUSD=X"]
    {| SMTP_HOST := Some "smtp.example.org"; SMTP_PORT := Some 587;
       SMTP_USER := Some "desk"; SMTP_PASS := None;
       EMAIL_FROM := Some "desk"; EMAIL_TO := Some "a@example.org" |}
    "2024-01-08 07:00:00 CET" "20240108_0700" id (fun r => pair r)
    (fun _ => "csv") accepting {| dry_run := false; pairs := None |})
    as [H _].
  edestruct H as (_ & Hlive & Hrun).
  rewrite Hrun by reflexivity. apply Hlive; [reflexivity|].
  do 3 right. by left.
Defined.
